(** * Verification of the HWPX template rebuild script [fix2.py]

    The script opens a fresh zip archive, walks a fixed manifest
    ([FILE_ORDER]) in order and, for every entry that exists under the
    template directory, writes it as an archive member with a compression
    method chosen from the entry name; missing entries are reported and
    skipped.  When the [with] block is left the archive is closed, and a
    completion line is printed.

    The development has four layers:
    - [PyStr] and [OsPath]: the string and path functions the script and
      [zipfile] rely on ([str.endswith], [os.path.join],
      [os.path.normpath]);
    - [Py], [Zip]: an exception-and-state monad for the interpreter, the
      file system as seen through [os.stat], and the part of
      [zipfile.ZipFile] the script calls;
    - [Fix2]: the script itself;
    - [View]: a reading of the loop as a fold over the manifest, proved
      equal to the script in [Fix2Facts] and used to state and prove the
      properties of the specification at the end of the file. *)

From Stdlib Require Import List String Ascii Bool Lia.
From Stdlib.Strings Require Import Byte.
From Stdlib.Sorting Require Import Permutation.
Import ListNotations.
Local Open Scope string_scope.
Local Open Scope list_scope.

(* ===================================================================== *)
(** ** Python string operations *)
(* ===================================================================== *)

Module PyStr.

(** [s.startswith(p)]. *)
Fixpoint startswith (s p : string) : bool :=
  match p with
  | EmptyString => true
  | String a p' =>
      match s with
      | EmptyString => false
      | String b s' => Ascii.eqb b a && startswith s' p'
      end
  end.

(** [s.endswith(suffix)]: [s] is [suffix], or its tail ends with it. *)
Fixpoint endswith (s suffix : string) : bool :=
  if String.eqb s suffix then true
  else match s with
       | EmptyString => false
       | String _ s' => endswith s' suffix
       end.

(** [s.split(sep)] for a one-character separator: never the empty list,
    and consecutive separators give empty components. *)
Fixpoint split (sep : ascii) (s : string) : list string :=
  match s with
  | EmptyString => [EmptyString]
  | String c s' =>
      if Ascii.eqb c sep then EmptyString :: split sep s'
      else match split sep s' with
           | [] => [String c EmptyString]
           | h :: t => String c h :: t
           end
  end.

(** [sep.join(comps)]. *)
Definition join (sep : string) (comps : list string) : string :=
  String.concat sep comps.

(** [sep * n]. *)
Fixpoint repeat_str (sep : string) (n : nat) : string :=
  match n with
  | O => EmptyString
  | S n' => (sep ++ repeat_str sep n')%string
  end.

(** A string in which the character [c] does not occur. *)
Fixpoint sep_free (c : ascii) (s : string) : Prop :=
  match s with
  | EmptyString => True
  | String x s' => x <> c /\ sep_free c s'
  end.

End PyStr.

(* ===================================================================== *)
(** ** [posixpath]: the path functions reached from the script *)
(* ===================================================================== *)

Module OsPath.
Import PyStr.

Definition sep : string := "/".
Definition sep_char : ascii := "/"%char.

(** [os.path.join(a, b)] with two arguments: an absolute [b] replaces
    [a]; otherwise a separator is inserted unless [a] is empty or
    already ends with one. *)
Definition join (a b : string) : string :=
  if startswith b sep then b
  else if String.eqb a "" || endswith a sep then (a ++ b)%string
  else (a ++ sep ++ b)%string.

(** One round of the [for comp in comps] loop of [normpath];
    [new_comps] is the list built so far. *)
Definition normpath_step (initial_slashes : nat) (new_comps : list string)
                         (comp : string) : list string :=
  if String.eqb comp "" || String.eqb comp "." then new_comps
  else if negb (String.eqb comp "..")
          || (Nat.eqb initial_slashes 0 && Nat.eqb (List.length new_comps) 0)
          || (negb (Nat.eqb (List.length new_comps) 0)
              && String.eqb (List.last new_comps "") "..")
       then new_comps ++ [comp]
       else List.removelast new_comps.

Definition normpath_loop (initial_slashes : nat) (comps : list string)
  : list string :=
  List.fold_left (normpath_step initial_slashes) comps [].

(** [os.path.normpath(path)]. *)
Definition normpath (path : string) : string :=
  if String.eqb path "" then "."
  else
    let initial_slashes :=
      if startswith path sep then
        if startswith path (repeat_str sep 2)
           && negb (startswith path (repeat_str sep 3))
        then 2 else 1
      else 0 in
    let comps := normpath_loop initial_slashes (split sep_char path) in
    let path' := PyStr.join sep comps in
    let path'' := (repeat_str sep initial_slashes ++ path')%string in
    if String.eqb path'' "" then "." else path''.

(** A component [normpath] keeps: not empty, and free of separators. *)
Definition kept (comp : string) : Prop :=
  comp <> ""%string /\ sep_free sep_char comp.

End OsPath.

(* ===================================================================== *)
(** ** The interpreter: exceptions and state *)
(* ===================================================================== *)

Module Py.

(** The exceptions that can escape from the calls the script makes.
    [OSError] is the error of [io.open] on the output, whatever subclass
    of [OSError] Python raises there. *)
Inductive exception : Type :=
| OSError (filename : string)            (* the output cannot be created *)
| FileNotFoundError (filename : string)  (* [os.stat] of a missing path  *)
| PermissionError (filename : string)    (* a source cannot be read      *)
| IsADirectoryError (filename : string)
| IndexError
| ValueError.

Inductive result (A : Type) : Type :=
| Ok (a : A)
| Raise (e : exception).
Arguments Ok {A} a.
Arguments Raise {A} e.

(** A computation over a state [S] returns normally or raises; the state
    reached is kept in both cases. *)
Definition M (S A : Type) : Type := S -> result A * S.

Definition ret {S A} (a : A) : M S A := fun s => (Ok a, s).

Definition raise {S A} (e : exception) : M S A := fun s => (Raise e, s).

Definition bind {S A B} (c : M S A) (k : A -> M S B) : M S B :=
  fun s => match c s with
           | (Ok a, s') => k a s'
           | (Raise e, s') => (Raise e, s')
           end.

(** [for x in xs: body(x)]; a [continue] is a [body] that returns. *)
Fixpoint for_each {S A} (xs : list A) (body : A -> M S unit) : M S unit :=
  match xs with
  | [] => ret tt
  | x :: xs' => bind (body x) (fun _ => for_each xs' body)
  end.

Definition is_ok {A} (r : result A) : bool :=
  match r with Ok _ => true | Raise _ => false end.

End Py.

Declare Scope py_scope.
Delimit Scope py_scope with py.
Notation "c1 ;; c2" := (Py.bind c1 (fun _ => c2))
  (at level 61, right associativity) : py_scope.
Notation "x <- c1 ;; c2" := (Py.bind c1 (fun x => c2))
  (at level 61, c1 at next level, right associativity) : py_scope.

(* ===================================================================== *)
(** ** The file system and [zipfile] *)
(* ===================================================================== *)

(** What [os.stat] and [open] report for a path: nothing there, a regular
    file with its bytes, a regular file whose [open(..., "rb")] is refused,
    or a directory.  A regular file or a directory is one [zf.write] can
    record: its modification time is a date zip can hold (1980 to 2107)
    and, for a file, reading it to the end succeeds.  A file whose copy
    fails in another way is none of these four kinds. *)
Inductive node : Type :=
| Missing
| RegularFile (content : list byte)
| Unreadable
| Directory.

(** The file system is read through [stat], which is what [os.stat] and
    [open] report for a path at the moment the loop tests and reads the
    entry; [can_create] tells whether a path can be opened for writing. *)
Record filesystem : Type := mkFS {
  stat : string -> node;
  can_create : string -> bool
}.

(** The deflate compressor and its inverse, as [zlib] provides them.  Only
    losslessness is required of them. *)
Class Deflater : Type := mkDeflater {
  deflate : list byte -> list byte;
  inflate : list byte -> list byte;
  inflate_deflate : forall b, inflate (deflate b) = b
}.

Module Zip.
Import Py.

Inductive compression : Type := ZIP_STORED | ZIP_DEFLATED.

(** A member: its name, its method and the bytes kept in the archive. *)
Record ZipInfo : Type := mkZipInfo {
  filename : string;
  compress_type : compression;
  stored : list byte
}.

(** [fp] is [true] while the handle is open; [filelist] is the member
    list in the order written. *)
Record ZipFile : Type := mkZipFile {
  fp : bool;
  filelist : list ZipInfo
}.

(** The state of a run: the console, the archive object bound to [zf]
    (absent until [ZipFile(...)] succeeds) and how often the handle was
    released. *)
Record world : Type := mkWorld {
  stdout : list string;
  zf : option ZipFile;
  releases : nat
}.

Definition initial_world : world := mkWorld [] None 0.

Definition print (line : string) : M world unit :=
  fun w => (Ok tt, mkWorld (stdout w ++ [line]) (zf w) (releases w)).

(** [os.path.exists(path)]: [os.stat] did not fail. *)
Definition os_path_exists (fs : filesystem) (path : string) : bool :=
  match stat fs path with
  | Missing => false
  | _ => true
  end.

Definition S_ISDIR (n : node) : bool :=
  match n with Directory => true | _ => false end.

(** [while arcname[0] in (os.sep, os.altsep): arcname = arcname[1:]];
    [None] is the [IndexError] raised on reaching the empty string. *)
Fixpoint strip_leading_sep (arcname : string) : option string :=
  match arcname with
  | EmptyString => None
  | String c rest =>
      if Ascii.eqb c OsPath.sep_char then strip_leading_sep rest
      else Some arcname
  end.

(** The name computed by [ZipInfo.from_file(filename, arcname)]. *)
Definition from_file (fs : filesystem) (filename arcname : string)
  : result string :=
  match stat fs filename with
  | Missing => Raise (FileNotFoundError filename)
  | nd =>
      match strip_leading_sep (OsPath.normpath arcname) with
      | None => Raise IndexError
      | Some a => Ok (if S_ISDIR nd then (a ++ "/")%string else a)
      end
  end.

(** [ZipInfo.is_dir]: the name ends with a slash. *)
Definition is_dir (name : string) : bool := PyStr.endswith name "/".

Definition encode `{Deflater} (ct : compression) (data : list byte)
  : list byte :=
  match ct with
  | ZIP_STORED => data
  | ZIP_DEFLATED => deflate data
  end.

Definition decode `{Deflater} (ct : compression) (data : list byte)
  : list byte :=
  match ct with
  | ZIP_STORED => data
  | ZIP_DEFLATED => inflate data
  end.

Definition append_member (w : world) (z : ZipFile) (zi : ZipInfo) : world :=
  mkWorld (stdout w) (Some (mkZipFile (fp z) (filelist z ++ [zi])))
          (releases w).

(** [zipfile.ZipFile(file, "w")]: creates or truncates the output. *)
Definition ZipFile_open (fs : filesystem) (file : string) : M world unit :=
  fun w =>
    if can_create fs file
    then (Ok tt, mkWorld (stdout w) (Some (mkZipFile true [])) (releases w))
    else (Raise (OSError file), w).

(** [zf.write(filename, arcname, compress_type=ct)].  [from_file] stats
    the path and computes the member name.  A directory is recorded by
    [mkdir] with the method a fresh [ZipInfo] has ([ZIP_STORED]) and no
    data, whatever [ct] is.  For a file the method is set to [ct] and the
    content is copied from [open(filename, "rb")], which raises when the
    file cannot be read.  A name already in the archive only draws a
    Python warning: the member is appended all the same. *)
Definition write `{Deflater} (fs : filesystem) (filename arcname : string)
                 (ct : compression) : M world unit :=
  fun w =>
    match zf w with
    | None => (Raise ValueError, w)
    | Some z =>
        if negb (fp z) then (Raise ValueError, w)
        else
          match from_file fs filename arcname with
          | Raise e => (Raise e, w)
          | Ok name =>
              if is_dir name
              then (Ok tt, append_member w z (mkZipInfo name ZIP_STORED []))
              else
                match stat fs filename with
                | RegularFile content =>
                    (Ok tt, append_member w z
                              (mkZipInfo name ct (encode ct content)))
                | Directory => (Raise (IsADirectoryError filename), w)
                | Missing => (Raise (FileNotFoundError filename), w)
                | Unreadable => (Raise (PermissionError filename), w)
                end
          end
    end.

(** [zf.close()]: nothing to do when the handle is already released. *)
Definition close : M world unit :=
  fun w =>
    match zf w with
    | Some z =>
        if fp z
        then (Ok tt, mkWorld (stdout w) (Some (mkZipFile false (filelist z)))
                             (S (releases w)))
        else (Ok tt, w)
    | None => (Ok tt, w)
    end.

(** [with zipfile.ZipFile(file, "w") as zf: body]: when the constructor
    raises, the body is not entered; otherwise [__exit__] closes the
    handle however the body ends and lets an exception pass. *)
Definition with_ZipFile (fs : filesystem) (file : string)
                        (body : M world unit) : M world unit :=
  fun w =>
    match ZipFile_open fs file w with
    | (Raise e, w1) => (Raise e, w1)
    | (Ok _, w1) =>
        let (r, w2) := body w1 in
        let (_, w3) := close w2 in
        (r, w3)
    end.

(** The members of the output archive a state holds. *)
Definition members (w : world) : list ZipInfo :=
  match zf w with
  | Some z => filelist z
  | None => []
  end.

Definition namelist (w : world) : list string := map filename (members w).

(** [zf.getinfo(name)]: [NameToInfo] keeps the member written last. *)
Definition getinfo (w : world) (name : string) : option ZipInfo :=
  find (fun zi => String.eqb (filename zi) name) (rev (members w)).

(** [zf.read(name)]: the bytes extraction yields; [None] is [KeyError]. *)
Definition read `{Deflater} (w : world) (name : string)
  : option (list byte) :=
  match getinfo w name with
  | Some zi => Some (decode (compress_type zi) (stored zi))
  | None => None
  end.

Definition handle_open (w : world) : bool :=
  match zf w with
  | Some z => fp z
  | None => false
  end.

End Zip.

(* ===================================================================== *)
(** ** The script *)
(* ===================================================================== *)

Module Fix2.
Import Py Zip.
Local Open Scope py_scope.

Definition TEMPLATE_DIR : string := "/tmp/hwpx_2026_fresh".
Definition OUTPUT_PATH : string :=
  "/Users/kinn/Desktop/thegrantai/public/template_2026_early.hwpx".

Definition FILE_ORDER : list string :=
  [ "mimetype";
    "version.xml";
    "Contents/header.xml";
    "Contents/section0.xml";
    "Preview/PrvText.txt";
    "Scripts/headerScripts";
    "Scripts/sourceScripts";
    "settings.xml";
    "Preview/PrvImage.png";
    "META-INF/container.rdf";
    "Contents/content.hpf";
    "META-INF/container.xml";
    "META-INF/manifest.xml" ].

Definition warning_line (fname : string) : string :=
  ("Warning: " ++ fname ++ " not found")%string.

Definition added_line (fname : string) : string :=
  ("Added: " ++ fname)%string.

Definition done_line : string :=
  "Done! Template recreated with correct file order.".

(** The [if]/[else] that chooses [compress]. *)
Definition compress_of (fname : string) : compression :=
  if String.eqb fname "mimetype" || PyStr.endswith fname ".png"
  then ZIP_STORED
  else ZIP_DEFLATED.

(** The body of [for fname in FILE_ORDER]. *)
Definition loop_body `{Deflater} (fs : filesystem) (template_dir : string)
                     (fname : string) : M world unit :=
  let full_path := OsPath.join template_dir fname in
  if negb (os_path_exists fs full_path)
  then print (warning_line fname)
  else
    let compress := compress_of fname in
    write fs full_path fname compress ;;
    print (added_line fname).

(** The whole script, with the three constants as parameters. *)
Definition rebuild `{Deflater} (fs : filesystem)
                   (template_dir output_path : string)
                   (file_order : list string) : M world unit :=
  with_ZipFile fs output_path
    (for_each file_order (loop_body fs template_dir)) ;;
  print done_line.

Definition main `{Deflater} (fs : filesystem) : M world unit :=
  rebuild fs TEMPLATE_DIR OUTPUT_PATH FILE_ORDER.

(** A run starts with an empty console and no archive object. *)
Definition run `{Deflater} (fs : filesystem)
               (template_dir output_path : string)
               (file_order : list string) : result unit * world :=
  rebuild fs template_dir output_path file_order initial_world.

End Fix2.

(* ===================================================================== *)
(** ** Concrete file systems and a concrete compressor *)
(* ===================================================================== *)

Module Samples.
Import Py Zip Fix2.

(** A file system given by a finite table; every other path is missing. *)
Fixpoint lookup (table : list (string * node)) (path : string) : node :=
  match table with
  | [] => Missing
  | (p, n) :: table' => if String.eqb p path then n else lookup table' path
  end.

Definition tree (table : list (string * node)) (writable : bool)
  : filesystem :=
  mkFS (lookup table) (fun _ => writable).

(** A compressor that emits its input as one stored block: a header
    byte followed by the data. *)
#[export] Instance stored_block : Deflater :=
  mkDeflater (fun b => x01 :: b) (@tl byte) (fun b => eq_refl).

Definition bytes_a : list byte := [x61; x62; x63].
Definition bytes_b : list byte := [x50; x4b].

(** The scenario of the specification: three entries present, one
    missing. *)
Definition scenario_manifest : list string :=
  ["mimetype"; "a.xml"; "img.png"; "missing.xml"].

Definition scenario_fs : filesystem :=
  tree [ ("/src/mimetype", RegularFile bytes_a);
         ("/src/a.xml", RegularFile bytes_b);
         ("/src/img.png", RegularFile bytes_a) ] true.

(** A directory where a manifest entry is expected. *)
Definition directory_fs : filesystem :=
  tree [ ("/src/Contents", Directory) ] true.

(** An entry written with a leading [./]. *)
Definition dotted_fs : filesystem :=
  tree [ ("/src/./a.xml", RegularFile bytes_a) ] true.

(** A file that exists and cannot be read, after one that can. *)
Definition unreadable_fs : filesystem :=
  tree [ ("/src/a.xml", RegularFile bytes_a);
         ("/src/b.xml", Unreadable);
         ("/src/c.xml", RegularFile bytes_b) ] true.

(** [d] is a link to a directory elsewhere, so that [d/../b.xml] is not
    the file [b.xml] of the template directory. *)
Definition linked_fs : filesystem :=
  tree [ ("/src/b.xml", RegularFile bytes_a);
         ("/src/d/../b.xml", RegularFile bytes_b) ] true.

(** Nothing can be created at the output path. *)
Definition readonly_fs : filesystem :=
  tree [ ("/src/mimetype", RegularFile bytes_a) ] false.

End Samples.

(* ===================================================================== *)
(** ** A pure reading of one loop round and of the whole loop *)
(* ===================================================================== *)

Module View.
Import Py Zip Fix2.

(** The test the loop makes on an entry. *)
Definition present (fs : filesystem) (template_dir fname : string) : bool :=
  os_path_exists fs (OsPath.join template_dir fname).

(** The name [from_file] gives a regular file whose [arcname] is
    [fname]. *)
Definition arcname (fname : string) : option string :=
  strip_leading_sep (OsPath.normpath fname).

(** A path made of one or more components, none of them empty, [.] or
    [..]: the shape of every entry of [FILE_ORDER]. *)
Definition plain_component (comp : string) : bool :=
  negb (String.eqb comp "") && negb (String.eqb comp ".")
  && negb (String.eqb comp "..").

Definition plain_path (fname : string) : bool :=
  forallb plain_component (PyStr.split OsPath.sep_char fname).

(** What one round does to the archive: nothing, a new member, or an
    exception. *)
Definition entry_result `{Deflater} (fs : filesystem)
                        (template_dir fname : string)
  : result (option ZipInfo) :=
  let full_path := OsPath.join template_dir fname in
  if negb (os_path_exists fs full_path) then Ok None
  else
    match from_file fs full_path fname with
    | Raise e => Raise e
    | Ok name =>
        if is_dir name then Ok (Some (mkZipInfo name ZIP_STORED []))
        else
          match stat fs full_path with
          | RegularFile content =>
              Ok (Some (mkZipInfo name (compress_of fname)
                                  (encode (compress_of fname) content)))
          | Directory => Raise (IsADirectoryError full_path)
          | Missing => Raise (FileNotFoundError full_path)
          | Unreadable => Raise (PermissionError full_path)
          end
    end.

(** The line a round prints when it does not raise. *)
Definition entry_line (fs : filesystem) (template_dir fname : string)
  : string :=
  if present fs template_dir fname then added_line fname
  else warning_line fname.

(** The loop as a fold: the lines printed, the members appended and the
    exception that stopped it, if any. *)
Fixpoint loop_view `{Deflater} (fs : filesystem) (template_dir : string)
                   (file_order : list string)
  : list string * list ZipInfo * option exception :=
  match file_order with
  | [] => ([], [], None)
  | fname :: rest =>
      match entry_result fs template_dir fname with
      | Raise e => ([], [], Some e)
      | Ok o =>
          let '(lines, zis, stop) := loop_view fs template_dir rest in
          (entry_line fs template_dir fname :: lines,
           match o with Some zi => zi :: zis | None => zis end,
           stop)
      end
  end.

(** The member a round appends, as a list of length at most one. *)
Definition written_member `{Deflater} (fs : filesystem)
                          (template_dir fname : string) : list ZipInfo :=
  match entry_result fs template_dir fname with
  | Ok (Some zi) => [zi]
  | _ => []
  end.

(** A round that returns. *)
Definition passes `{Deflater} (fs : filesystem)
                  (template_dir fname : string) : bool :=
  is_ok (entry_result fs template_dir fname).

(** [name] is the member name [from_file] computes for entry [fname]. *)
Definition stored_as (fs : filesystem) (template_dir fname name : string)
  : Prop :=
  from_file fs (OsPath.join template_dir fname) fname = Ok name.

(** The member name of a plain entry: a directory gets a final slash. *)
Definition member_name (fs : filesystem) (template_dir fname : string)
  : string :=
  if S_ISDIR (stat fs (OsPath.join template_dir fname))
  then (fname ++ "/")%string else fname.

Definition outcome (stop : option exception) : result unit :=
  match stop with
  | None => Ok tt
  | Some e => Raise e
  end.

(** Name and method of each member: what two archives must share to
    have the same structure. *)
Definition structure (w : world) : list (string * compression) :=
  map (fun zi => (filename zi, compress_type zi)) (members w).

End View.

(* ===================================================================== *)
(** ** Reading the console and comparing file systems *)
(* ===================================================================== *)

Module Shape.
Import Py Zip Fix2.

(** The progress lines of the console: those [print(f'Added: {fname}')]
    wrote. *)
Definition is_added_line (line : string) : bool :=
  PyStr.startswith line "Added: ".

(** The lines [print(f'Warning: {fname} not found')] wrote. *)
Definition is_warning_line (line : string) : bool :=
  PyStr.startswith line "Warning: ".

(** [os.path.isabs(fname)]: the entry begins with a separator. *)
Definition isabs (fname : string) : bool :=
  PyStr.startswith fname OsPath.sep.

(** Two nodes of the same kind differ at most in the bytes of a regular
    file. *)
Definition same_kind (a b : node) : bool :=
  match a, b with
  | Missing, Missing => true
  | RegularFile _, RegularFile _ => true
  | Unreadable, Unreadable => true
  | Directory, Directory => true
  | _, _ => false
  end.

(** A template directory in which every path is a readable file. *)
Definition full_fs (content : list byte) : filesystem :=
  mkFS (fun _ => RegularFile content) (fun _ => true).

(** The tree of the scenario with other bytes in every file. *)
Definition scenario_fs' : filesystem :=
  Samples.tree [ ("/src/mimetype", RegularFile []);
                 ("/src/a.xml", RegularFile Samples.bytes_a);
                 ("/src/img.png", RegularFile Samples.bytes_b) ] true.

(** An entry given by an absolute path, present in the file system. *)
Definition absolute_fs : filesystem :=
  Samples.tree [ ("/etc/hosts", RegularFile Samples.bytes_a) ] true.

End Shape.

(* ===================================================================== *)
(** ** Facts about strings *)
(* ===================================================================== *)

Module PyStrFacts.
Import PyStr.

Lemma append_assoc (a b c : string) :
  ((a ++ b) ++ c = a ++ (b ++ c))%string.
Proof. induction a as [|x a IH]; simpl; [reflexivity | now rewrite IH]. Qed.

Lemma append_nil_r (a : string) : (a ++ "")%string = a.
Proof. induction a as [|x a IH]; simpl; [reflexivity | now rewrite IH]. Qed.

Lemma length_append (a b : string) :
  String.length (a ++ b) = String.length a + String.length b.
Proof. induction a as [|x a IH]; simpl; [reflexivity | now rewrite IH]. Qed.

Lemma append_inv_head (p a b : string) :
  (p ++ a)%string = (p ++ b)%string -> a = b.
Proof.
  induction p as [|x p IH]; simpl; intros E; [exact E|].
  injection E as E. now apply IH.
Qed.

(** Two strings with a common suffix are equal as soon as what precedes
    the suffix has the same length. *)
Lemma append_inv_tail_len (a b s t : string) :
  String.length a = String.length b ->
  (a ++ s)%string = (b ++ t)%string -> a = b /\ s = t.
Proof.
  revert b. induction a as [|x a IH]; intros [|y b] L E; simpl in *;
    try discriminate.
  - now split.
  - injection E as -> E. injection L as L.
    destruct (IH b L E) as [-> ->]. now split.
Qed.

Lemma append_inv_tail (a b s : string) :
  (a ++ s)%string = (b ++ s)%string -> a = b.
Proof.
  intros E. apply (append_inv_tail_len a b s s); [|exact E].
  apply (f_equal String.length) in E. rewrite !length_append in E. lia.
Qed.

Lemma endswith_eq (s suffix : string) :
  endswith s suffix =
  if String.eqb s suffix then true
  else match s with
       | EmptyString => false
       | String _ s' => endswith s' suffix
       end.
Proof. destruct s; reflexivity. Qed.

(** [endswith] is the existence of a prefix. *)
Lemma endswith_iff (s suffix : string) :
  endswith s suffix = true <-> exists p, s = (p ++ suffix)%string.
Proof.
  induction s as [|c s IH]; rewrite endswith_eq.
  - destruct (String.eqb_spec "" suffix) as [<-|N].
    + split; [exists ""; reflexivity | reflexivity].
    + split; [discriminate|]. intros [p E]. destruct p; simpl in E.
      * now elim N.
      * discriminate.
  - destruct (String.eqb_spec (String c s) suffix) as [<-|N].
    + split; [exists ""; reflexivity | reflexivity].
    + rewrite IH. split.
      * intros [p ->]. exists (String c p). reflexivity.
      * intros [p E]. destruct p as [|d p]; simpl in E.
        -- now elim N.
        -- injection E as _ ->. now exists p.
Qed.

Lemma endswith_refl (s : string) : endswith s s = true.
Proof. apply endswith_iff. now exists "". Qed.

Lemma endswith_append (p suffix : string) :
  endswith (p ++ suffix) suffix = true.
Proof. apply endswith_iff. now exists p. Qed.

(** With a one-character suffix only the end of the string counts. *)
Lemma endswith_char_append (a b : string) (c : ascii) :
  b <> ""%string ->
  endswith (a ++ b) (String c "") = endswith b (String c "").
Proof.
  intros Nb. induction a as [|x a IH]; [reflexivity|].
  change (String x a ++ b)%string with (String x (a ++ b)).
  rewrite endswith_eq, IH.
  destruct (String.eqb_spec (String x (a ++ b)) (String c "")) as [E|_];
    [|reflexivity].
  injection E as _ E. destruct a; simpl in E; [now elim Nb | discriminate].
Qed.

Lemma sep_free_not_endswith (c : ascii) (s : string) :
  sep_free c s -> endswith s (String c "") = false.
Proof.
  induction s as [|x s IH]; [reflexivity|]. intros [Nx F].
  rewrite endswith_eq, (IH F).
  destruct (String.eqb_spec (String x s) (String c "")) as [E|_];
    [|reflexivity].
  injection E as E _. now elim Nx.
Qed.

Lemma split_not_nil (c : ascii) (s : string) : split c s <> [].
Proof.
  destruct s as [|x s]; simpl; [discriminate|].
  destruct (Ascii.eqb x c); [discriminate|].
  destruct (split c s); discriminate.
Qed.

Lemma split_sep_free (c : ascii) (s : string) :
  Forall (sep_free c) (split c s).
Proof.
  induction s as [|x s IH]; simpl.
  - repeat constructor.
  - destruct (Ascii.eqb_spec x c) as [->|N].
    + constructor; [exact I | exact IH].
    + destruct (split c s) as [|h t]; [repeat constructor; assumption|].
      inversion IH; subst. constructor; [split; assumption | assumption].
Qed.

(** Joining what [split] gave returns the string. *)
Lemma join_split (c : ascii) (s : string) :
  join (String c "") (split c s) = s.
Proof.
  unfold join. induction s as [|x s IH]; simpl; [reflexivity|].
  destruct (Ascii.eqb_spec x c) as [->|N].
  - pose proof (split_not_nil c s) as NN.
    destruct (split c s) as [|h t]; [now elim NN|].
    simpl in *. now rewrite IH.
  - pose proof (split_not_nil c s) as NN.
    destruct (split c s) as [|h t]; [now elim NN|].
    destruct t as [|h' t]; simpl in *; now rewrite <- IH.
Qed.

End PyStrFacts.

(* ===================================================================== *)
(** ** Facts about [normpath] and archive names *)
(* ===================================================================== *)

Module OsPathFacts.
Import PyStr PyStrFacts OsPath Zip View.

Lemma Forall_removelast {A} (P : A -> Prop) (l : list A) :
  Forall P l -> Forall P (removelast l).
Proof.
  induction 1 as [|x l Px Pl IH]; simpl; [constructor|].
  destruct l; [constructor | constructor; assumption].
Qed.

Lemma normpath_step_kept (k : nat) (acc : list string) (comp : string) :
  Forall kept acc -> sep_free sep_char comp ->
  Forall kept (normpath_step k acc comp).
Proof.
  intros Hacc Hc. unfold normpath_step.
  destruct (String.eqb_spec comp "") as [->|Ne]; simpl; [assumption|].
  destruct (String.eqb comp "."); simpl; [assumption|].
  match goal with |- Forall _ (if ?b then _ else _) => destruct b end.
  - apply Forall_app. split; [assumption|]. repeat constructor; assumption.
  - now apply Forall_removelast.
Qed.

Lemma normpath_fold_kept (k : nat) (comps acc : list string) :
  Forall kept acc -> Forall (sep_free sep_char) comps ->
  Forall kept (fold_left (normpath_step k) comps acc).
Proof.
  revert acc. induction comps as [|c comps IH]; simpl; intros acc Ha Hc.
  - assumption.
  - inversion Hc; subst. apply IH; [|assumption].
    now apply normpath_step_kept.
Qed.

Lemma normpath_loop_kept (k : nat) (s : string) :
  Forall kept (normpath_loop k (split sep_char s)).
Proof.
  apply normpath_fold_kept; [constructor | apply split_sep_free].
Qed.

Lemma join_cons (c : string) (comps : list string) :
  comps <> [] ->
  PyStr.join sep (c :: comps) = (c ++ sep ++ PyStr.join sep comps)%string.
Proof. destruct comps; [now intros N; elim N | reflexivity]. Qed.

Lemma join_kept_not_empty (comps : list string) :
  comps <> [] -> Forall kept comps -> PyStr.join sep comps <> ""%string.
Proof.
  intros N F. destruct comps as [|c comps]; [now elim N|].
  inversion F as [|? ? [Nc _] _]; subst.
  destruct comps; simpl.
  - assumption.
  - destruct c; [now elim Nc | discriminate].
Qed.

(** A joined path of kept components begins with no separator ... *)
Lemma strip_join_kept (comps : list string) :
  comps <> [] -> Forall kept comps ->
  strip_leading_sep (PyStr.join sep comps) = Some (PyStr.join sep comps).
Proof.
  intros N F. destruct comps as [|c comps]; [now elim N|].
  inversion F as [|? ? [Nc Fc] _]; subst.
  destruct c as [|x c]; [now elim Nc|]. destruct Fc as [Nx _].
  assert (E : exists r, PyStr.join sep (String x c :: comps) = String x r).
  { destruct comps; simpl; eauto. }
  destruct E as [r ->]. simpl.
  destruct (Ascii.eqb_spec x sep_char) as [->|_]; [now elim Nx | reflexivity].
Qed.

(** ... and ends with none. *)
Lemma join_kept_not_dir (comps : list string) :
  comps <> [] -> Forall kept comps ->
  is_dir (PyStr.join sep comps) = false.
Proof.
  unfold is_dir. induction comps as [|c comps IH]; intros N F;
    [now elim N|].
  inversion F as [|? ? [Nc Fc] F']; subst.
  destruct comps as [|c' comps].
  - simpl. now apply (sep_free_not_endswith sep_char).
  - rewrite join_cons by discriminate.
    rewrite <- append_assoc.
    rewrite (endswith_char_append _ _ sep_char).
    + apply IH; [discriminate | assumption].
    + apply join_kept_not_empty; [discriminate | assumption].
Qed.

Lemma strip_slashes (k : nat) (s : string) :
  strip_leading_sep (repeat_str sep k ++ s) = strip_leading_sep s.
Proof. induction k as [|k IH]; simpl; [reflexivity | exact IH]. Qed.

(** The name of a file member is never the name of a directory: it is
    [.] or a joined path of kept components. *)
Lemma arcname_not_dir (fname a : string) :
  arcname fname = Some a -> is_dir a = false.
Proof.
  unfold arcname, normpath.
  destruct (String.eqb fname ""); [intros [= <-]; reflexivity|].
  set (k := if startswith fname sep then _ else _).
  pose proof (normpath_loop_kept k fname) as F.
  destruct (normpath_loop k (split sep_char fname)) as [|c comps] eqn:E.
  - simpl. rewrite append_nil_r.
    destruct (String.eqb (repeat_str sep k) ""); [intros [= <-]; reflexivity|].
    pose proof (strip_slashes k "") as S. rewrite append_nil_r in S.
    rewrite S. discriminate.
  - assert (N : c :: comps <> []) by discriminate.
    match goal with |- context [String.eqb ?p ""] =>
      destruct (String.eqb p "") end; [intros [= <-]; reflexivity|].
    rewrite strip_slashes, (strip_join_kept _ N F). intros [= <-].
    exact (join_kept_not_dir (c :: comps) N F).
Qed.

Lemma append_sep_is_dir (a : string) : is_dir (a ++ "/") = true.
Proof. apply endswith_append. Qed.

(** On plain components the loop of [normpath] only appends. *)
Lemma normpath_fold_plain (k : nat) (comps acc : list string) :
  forallb plain_component comps = true ->
  fold_left (normpath_step k) comps acc = acc ++ comps.
Proof.
  revert acc. induction comps as [|c comps IH]; simpl; intros acc P.
  - now rewrite app_nil_r.
  - apply andb_true_iff in P as [Pc P]. rewrite (IH _ P).
    unfold plain_component in Pc.
    apply andb_true_iff in Pc as [Pc P3].
    apply andb_true_iff in Pc as [P1 P2].
    unfold normpath_step.
    apply negb_true_iff in P1, P2. rewrite P1, P2, P3. simpl.
    now rewrite <- app_assoc.
Qed.

Lemma plain_path_first (x : ascii) (s : string) :
  plain_path (String x s) = true -> x <> sep_char.
Proof.
  unfold plain_path. simpl. intros P ->.
  rewrite Ascii.eqb_refl in P. discriminate.
Qed.

(** A plain path is its own archive name. *)
Lemma plain_path_arcname (fname : string) :
  plain_path fname = true -> arcname fname = Some fname.
Proof.
  intros P. destruct fname as [|x s]; [discriminate|].
  pose proof (plain_path_first _ _ P) as Nx.
  unfold arcname, normpath.
  assert (S0 : startswith (String x s) sep = false).
  { unfold sep. cbn [startswith].
    destruct (Ascii.eqb_spec x "/") as [E|_]; [now elim Nx | reflexivity]. }
  rewrite S0. cbn [String.eqb].
  unfold normpath_loop. rewrite (normpath_fold_plain 0 _ [] P).
  cbn [app]. change sep with (String sep_char "").
  rewrite join_split. cbn [repeat_str String.append String.eqb].
  cbn [strip_leading_sep].
  destruct (Ascii.eqb_spec x sep_char) as [E|_]; [now elim Nx | reflexivity].
Qed.

Lemma plain_path_not_dir (fname : string) :
  plain_path fname = true -> is_dir fname = false.
Proof.
  intros P. apply (arcname_not_dir fname). now apply plain_path_arcname.
Qed.

End OsPathFacts.

(* ===================================================================== *)
(** ** The loop and the run, read as folds *)
(* ===================================================================== *)

Module Fix2Facts.
Import Py Zip Fix2 View PyStrFacts OsPathFacts.

Section Loop.
Context `{D : Deflater}.
Variable fs : filesystem.
Variable template_dir : string.

Lemma present_missing (fname : string) :
  present fs template_dir fname = false <->
  stat fs (OsPath.join template_dir fname) = Missing.
Proof.
  unfold present, os_path_exists.
  destruct (stat fs (OsPath.join template_dir fname));
    split; intros; congruence.
Qed.

(** *** One round, by the kind of node at the entry's path *)

Lemma entry_result_missing (fname : string) :
  present fs template_dir fname = false ->
  entry_result fs template_dir fname = Ok None.
Proof.
  unfold present, entry_result. intros ->. reflexivity.
Qed.

Lemma entry_result_regular (fname : string) (content : list byte) :
  stat fs (OsPath.join template_dir fname) = RegularFile content ->
  entry_result fs template_dir fname =
  match arcname fname with
  | Some a => Ok (Some (mkZipInfo a (compress_of fname)
                                  (encode (compress_of fname) content)))
  | None => Raise IndexError
  end.
Proof.
  intros E. unfold entry_result, os_path_exists, from_file.
  rewrite E. simpl. fold (arcname fname).
  destruct (arcname fname) as [a|] eqn:A; [|reflexivity].
  now rewrite (arcname_not_dir _ _ A).
Qed.

Lemma entry_result_directory (fname : string) :
  stat fs (OsPath.join template_dir fname) = Directory ->
  entry_result fs template_dir fname =
  match arcname fname with
  | Some a => Ok (Some (mkZipInfo (a ++ "/") ZIP_STORED []))
  | None => Raise IndexError
  end.
Proof.
  intros E. unfold entry_result, os_path_exists, from_file.
  rewrite E. simpl. fold (arcname fname).
  destruct (arcname fname) as [a|]; [|reflexivity].
  now rewrite append_sep_is_dir.
Qed.

Lemma entry_result_unreadable (fname : string) :
  stat fs (OsPath.join template_dir fname) = Unreadable ->
  entry_result fs template_dir fname =
  match arcname fname with
  | Some a => Raise (PermissionError (OsPath.join template_dir fname))
  | None => Raise IndexError
  end.
Proof.
  intros E. unfold entry_result, os_path_exists, from_file.
  rewrite E. simpl. fold (arcname fname).
  destruct (arcname fname) as [a|] eqn:A; [|reflexivity].
  now rewrite (arcname_not_dir _ _ A).
Qed.

Lemma entry_result_skip_iff (fname : string) :
  entry_result fs template_dir fname = Ok None <->
  present fs template_dir fname = false.
Proof.
  split; [|apply entry_result_missing].
  unfold present. intros E.
  destruct (stat fs (OsPath.join template_dir fname)) as [|c| |] eqn:S.
  - unfold os_path_exists. now rewrite S.
  - rewrite (entry_result_regular _ _ S) in E.
    destruct (arcname fname); discriminate.
  - rewrite (entry_result_unreadable _ S) in E.
    destruct (arcname fname); discriminate.
  - rewrite (entry_result_directory _ S) in E.
    destruct (arcname fname); discriminate.
Qed.

(** A member that was written carries the name [from_file] computed,
    and its entry was present. *)
Lemma entry_result_written (fname : string) (zi : ZipInfo) :
  entry_result fs template_dir fname = Ok (Some zi) ->
  present fs template_dir fname = true /\
  from_file fs (OsPath.join template_dir fname) fname = Ok (filename zi).
Proof.
  unfold entry_result, present.
  destruct (os_path_exists fs (OsPath.join template_dir fname));
    [|discriminate]. simpl.
  destruct (from_file fs (OsPath.join template_dir fname) fname)
    as [name|e]; [|discriminate].
  destruct (is_dir name).
  - intros [= <-]. now split.
  - destruct (stat fs (OsPath.join template_dir fname));
      try discriminate.
    intros [= <-]. now split.
Qed.

(** *** One round of the script against its reading *)

Lemma loop_body_view (fname : string) (w : world) (z : ZipFile) :
  zf w = Some z -> fp z = true ->
  loop_body fs template_dir fname w =
  match entry_result fs template_dir fname with
  | Raise e => (Raise e, w)
  | Ok o =>
      (Ok tt,
       mkWorld (stdout w ++ [entry_line fs template_dir fname])
               (Some (mkZipFile true
                        (filelist z ++
                         match o with Some zi => [zi] | None => [] end)))
               (releases w))
  end.
Proof.
  intros Hz Hfp. destruct w as [out h n]. destruct z as [o l].
  simpl in Hz, Hfp. subst h o.
  unfold loop_body, entry_result, entry_line, present.
  destruct (os_path_exists fs (OsPath.join template_dir fname)); simpl.
  - unfold bind, write. simpl.
    destruct (from_file fs (OsPath.join template_dir fname) fname)
      as [name|e]; [|reflexivity].
    destruct (is_dir name); [reflexivity|].
    destruct (stat fs (OsPath.join template_dir fname)); reflexivity.
  - unfold print. simpl. now rewrite app_nil_r.
Qed.

(** *** The loop *)

Lemma for_each_view (file_order : list string) (w : world) (z : ZipFile) :
  zf w = Some z -> fp z = true ->
  for_each file_order (loop_body fs template_dir) w =
  let '(lines, zis, stop) := loop_view fs template_dir file_order in
  (outcome stop,
   mkWorld (stdout w ++ lines)
           (Some (mkZipFile true (filelist z ++ zis)))
           (releases w)).
Proof.
  revert w z. induction file_order as [|fname rest IH]; intros w z Hz Hfp.
  - destruct w as [out h n]. destruct z as [o l]. simpl in *. subst.
    unfold ret. now rewrite !app_nil_r.
  - cbn [for_each loop_view]. unfold bind.
    rewrite (loop_body_view fname w z Hz Hfp).
    destruct (entry_result fs template_dir fname) as [o|e].
    + erewrite IH; [|reflexivity|reflexivity].
      destruct (loop_view fs template_dir rest) as [[lines zis] stop].
      simpl. rewrite <- !app_assoc. destruct o; reflexivity.
    + simpl. destruct w as [out h n]. destruct z as [o l].
      simpl in *. subst. now rewrite !app_nil_r.
Qed.

End Loop.

(** *** The run *)

Lemma run_view `{D : Deflater} (fs : filesystem)
      (template_dir output_path : string) (file_order : list string) :
  run fs template_dir output_path file_order =
  if can_create fs output_path then
    let '(lines, zis, stop) := loop_view fs template_dir file_order in
    match stop with
    | None => (Ok tt, mkWorld (lines ++ [done_line])
                              (Some (mkZipFile false zis)) 1)
    | Some e => (Raise e, mkWorld lines (Some (mkZipFile false zis)) 1)
    end
  else (Raise (OSError output_path), initial_world).
Proof.
  unfold run, rebuild, bind, with_ZipFile, ZipFile_open. simpl.
  destruct (can_create fs output_path); [|reflexivity].
  erewrite for_each_view; [|reflexivity|reflexivity].
  destruct (loop_view fs template_dir file_order) as [[lines zis] stop].
  destruct stop; reflexivity.
Qed.

End Fix2Facts.

(* ===================================================================== *)
(** ** What the loop leaves behind *)
(* ===================================================================== *)

Module LoopFacts.
Import Py Zip Fix2 View PyStrFacts OsPathFacts Fix2Facts.

Section Loop.
Context `{D : Deflater}.
Variable fs : filesystem.
Variable template_dir : string.

Local Abbreviation entry_result := (entry_result fs template_dir).
Local Abbreviation loop_view := (loop_view fs template_dir).
Local Abbreviation present := (present fs template_dir).
Local Abbreviation passes := (passes fs template_dir).
Local Abbreviation written_member := (written_member fs template_dir).
Local Abbreviation entry_line := (entry_line fs template_dir).

Lemma written_member_ok (fname : string) (o : option ZipInfo) :
  entry_result fname = Ok o ->
  written_member fname = match o with Some zi => [zi] | None => [] end.
Proof. unfold View.written_member. now intros ->. Qed.

(** The loop handles a prefix of the manifest; it stops early exactly
    at an entry whose round raises. *)
Lemma loop_view_split (file_order : list string) :
  exists pre post,
    file_order = pre ++ post /\
    forallb passes pre = true /\
    loop_view file_order =
      (map entry_line pre, flat_map written_member pre,
       match post with
       | [] => None
       | fname :: _ =>
           match entry_result fname with
           | Raise e => Some e
           | Ok _ => None
           end
       end) /\
    match post with
    | [] => True
    | fname :: _ => passes fname = false
    end.
Proof.
  induction file_order as [|fname rest IH].
  - exists [], []. repeat split.
  - destruct IH as (pre & post & E & P & V & S).
    destruct (entry_result fname) as [o|e] eqn:R.
    + exists (fname :: pre), post. repeat split.
      * simpl. now rewrite E.
      * simpl. unfold View.passes at 1. rewrite R. exact P.
      * cbn [View.loop_view]. rewrite R, V. cbn [map flat_map].
        rewrite (written_member_ok _ _ R). destruct o; reflexivity.
      * exact S.
    + exists [], (fname :: rest). repeat split.
      * cbn [View.loop_view]. now rewrite R.
      * unfold View.passes. now rewrite R.
Qed.

(** When every round returns, the whole manifest is handled. *)
Lemma loop_view_passes (file_order : list string) :
  forallb passes file_order = true ->
  loop_view file_order =
  (map entry_line file_order, flat_map written_member file_order, None).
Proof.
  induction file_order as [|fname rest IH]; [reflexivity|].
  cbn [forallb View.loop_view]. intros P.
  apply andb_true_iff in P as [P1 P2]. rewrite (IH P2).
  unfold View.passes in P1. cbn [map flat_map].
  destruct (entry_result fname) as [o|e] eqn:R; [|discriminate].
  rewrite (written_member_ok _ _ R). destruct o; reflexivity.
Qed.

Lemma loop_view_completes (file_order : list string) :
  snd (loop_view file_order) = None ->
  forallb passes file_order = true.
Proof.
  induction file_order as [|fname rest IH]; [reflexivity|].
  cbn [forallb View.loop_view]. unfold View.passes at 1.
  destruct (entry_result fname) as [o|e]; [|discriminate].
  destruct (loop_view rest) as [[lines zis] stop]. simpl in *.
  exact IH.
Qed.

(** Rounds that return can be taken out of the loop in one block. *)
Lemma loop_view_app (pre rest : list string) :
  forallb passes pre = true ->
  loop_view (pre ++ rest) =
  let '(lines, zis, stop) := loop_view rest in
  (map entry_line pre ++ lines, flat_map written_member pre ++ zis, stop).
Proof.
  induction pre as [|fname pre IH]; cbn [forallb]; intros P.
  - simpl. now destruct (loop_view rest) as [[lines zis] stop].
  - apply andb_true_iff in P as [P1 P2].
    change ((fname :: pre) ++ rest) with (fname :: (pre ++ rest)).
    cbn [View.loop_view map flat_map]. rewrite (IH P2).
    unfold View.passes in P1.
    destruct (entry_result fname) as [o|e] eqn:R; [|discriminate].
    rewrite (written_member_ok _ _ R).
    destruct (loop_view rest) as [[lines zis] stop].
    destruct o; reflexivity.
Qed.

(** An entry that is missing changes neither the members nor the way
    the loop ends. *)
Lemma loop_view_missing (pre post : list string) (fname : string) :
  present fname = false ->
  snd (fst (loop_view (pre ++ fname :: post))) =
    snd (fst (loop_view (pre ++ post))) /\
  snd (loop_view (pre ++ fname :: post)) = snd (loop_view (pre ++ post)).
Proof.
  intros Hx. induction pre as [|a pre IH].
  - cbn [app View.loop_view]. rewrite (entry_result_missing _ _ _ Hx).
    destruct (loop_view post) as [[lines zis] stop]. now split.
  - change ((a :: pre) ++ fname :: post) with (a :: (pre ++ fname :: post)).
    change ((a :: pre) ++ post) with (a :: (pre ++ post)).
    cbn [View.loop_view].
    destruct (entry_result a) as [o|e]; [|now split].
    destruct (loop_view (pre ++ fname :: post)) as [[l1 z1] s1].
    destruct (loop_view (pre ++ post)) as [[l2 z2] s2].
    simpl in *. destruct IH as [-> ->]. now split.
Qed.

(** The names written are, one for one and in order, those [from_file]
    gives the present entries. *)
Lemma written_names (entries : list string) :
  forallb passes entries = true ->
  Forall2 (stored_as fs template_dir) (filter present entries)
          (map filename (flat_map written_member entries)).
Proof.
  induction entries as [|fname rest IH]; [constructor|].
  cbn [forallb filter flat_map]. intros P.
  apply andb_true_iff in P as [P1 P2]. specialize (IH P2).
  unfold View.passes in P1.
  destruct (entry_result fname) as [[zi|]|e] eqn:R; [| |discriminate].
  - rewrite (written_member_ok _ _ R).
    destruct (entry_result_written _ _ _ _ R) as [Pr F].
    rewrite Pr. simpl. constructor; assumption.
  - rewrite (written_member_ok _ _ R).
    apply entry_result_skip_iff in R. rewrite R. exact IH.
Qed.

(** Every member comes from a present entry of the list. *)
Lemma written_member_origin (entries : list string) (zi : ZipInfo) :
  In zi (flat_map written_member entries) ->
  exists fname, In fname entries /\ entry_result fname = Ok (Some zi).
Proof.
  intros I. apply in_flat_map in I as (fname & I & W).
  exists fname. split; [assumption|].
  unfold View.written_member in W.
  destruct (entry_result fname) as [[zi'|]|e]; simpl in W;
    try contradiction.
  destruct W as [-> | []]. reflexivity.
Qed.

End Loop.

End LoopFacts.

(* ===================================================================== *)
(** ** The console lines *)
(* ===================================================================== *)

Module LineFacts.
Import Py Zip Fix2 View PyStrFacts.

Lemma warning_line_inj (a b : string) :
  warning_line a = warning_line b -> a = b.
Proof.
  unfold warning_line. intros E. apply append_inv_head in E.
  now apply append_inv_tail in E.
Qed.

Lemma added_line_inj (a b : string) : added_line a = added_line b -> a = b.
Proof. unfold added_line. apply append_inv_head. Qed.

Lemma warning_not_added (a b : string) : warning_line a <> added_line b.
Proof. discriminate. Qed.

Lemma done_not_warning (a : string) : done_line <> warning_line a.
Proof. discriminate. Qed.

Lemma done_not_added (a : string) : done_line <> added_line a.
Proof. discriminate. Qed.

Lemma done_not_entry_line (fs : filesystem) (dir a : string) :
  done_line <> entry_line fs dir a.
Proof.
  unfold entry_line. destruct (present fs dir a);
    [apply done_not_added | apply done_not_warning].
Qed.

(** The loop never prints the completion line. *)
Lemma count_done_entry_lines (fs : filesystem) (dir : string)
      (entries : list string) :
  count_occ string_dec (map (entry_line fs dir) entries) done_line = 0.
Proof.
  induction entries as [|a entries IH]; [reflexivity|]. simpl.
  destruct (string_dec (entry_line fs dir a) done_line) as [E|_];
    [|exact IH].
  symmetry in E. now apply done_not_entry_line in E.
Qed.

(** The warning for a missing entry is printed once for each time the
    entry is listed. *)
Lemma count_warning_entry_lines (fs : filesystem) (dir x : string)
      (entries : list string) :
  present fs dir x = false ->
  count_occ string_dec (map (entry_line fs dir) entries) (warning_line x) =
  count_occ string_dec entries x.
Proof.
  intros Hx. induction entries as [|a entries IH]; [reflexivity|].
  cbn [map]. destruct (string_dec a x) as [->|N].
  - unfold entry_line at 1. rewrite Hx.
    rewrite !count_occ_cons_eq by reflexivity. now rewrite IH.
  - rewrite (count_occ_cons_neq _ _ N).
    rewrite count_occ_cons_neq; [exact IH|].
    unfold entry_line. destruct (present fs dir a).
    + intros E. symmetry in E. now apply warning_not_added in E.
    + intros E. now apply warning_line_inj in E.
Qed.


End LineFacts.

(* ===================================================================== *)
(** ** The properties of the specification *)
(* ===================================================================== *)

Import Py Zip Fix2 View.
Import PyStrFacts OsPathFacts Fix2Facts LoopFacts LineFacts.

(** A run in terms of the prefix of the manifest that was handled. *)
Lemma run_split `{D : Deflater} (fs : filesystem)
      (template_dir output_path : string) (file_order : list string) :
  can_create fs output_path = true ->
  exists pre post,
    file_order = pre ++ post /\
    forallb (passes fs template_dir) pre = true /\
    members (snd (run fs template_dir output_path file_order)) =
      flat_map (written_member fs template_dir) pre /\
    match post with
    | [] =>
        run fs template_dir output_path file_order =
        (Ok tt,
         mkWorld (map (entry_line fs template_dir) pre ++ [done_line])
                 (Some (mkZipFile false
                          (flat_map (written_member fs template_dir) pre)))
                 1)
    | fname :: _ =>
        exists e,
          entry_result fs template_dir fname = Raise e /\
          run fs template_dir output_path file_order =
          (Raise e,
           mkWorld (map (entry_line fs template_dir) pre)
                   (Some (mkZipFile false
                            (flat_map (written_member fs template_dir) pre)))
                   1)
    end.
Proof.
  intros C. rewrite run_view, C.
  destruct (loop_view_split fs template_dir file_order)
    as (pre & post & E & P & V & S).
  exists pre, post. rewrite V. split; [exact E|]. split; [exact P|].
  destruct post as [|fname post].
  - split; reflexivity.
  - unfold passes in S.
    destruct (entry_result fs template_dir fname) as [o|e]; [discriminate|].
    split; [reflexivity|]. exists e. split; reflexivity.
Qed.

(** C7.  When the output archive cannot be created the run fails with the
    [OSError] of the constructor, and the state is the initial one: no
    archive object, hence no member, and an empty console (no warning, no
    progress line, no completion line). *)
Theorem unwritable_output_fails_first `{D : Deflater} (fs : filesystem)
        (template_dir output_path : string) (file_order : list string) :
  can_create fs output_path = false ->
  run fs template_dir output_path file_order =
    (Raise (OSError output_path), initial_world) /\
  members (snd (run fs template_dir output_path file_order)) = [] /\
  stdout (snd (run fs template_dir output_path file_order)) = [].
Proof.
  intros C. rewrite run_view, C. repeat split.
Qed.

(** C5.  However the run ends, the archive handle is not left open, and it
    is released once when the archive was opened (never when the
    constructor itself failed and no handle exists). *)
Theorem archive_handle_released_once `{D : Deflater} (fs : filesystem)
        (template_dir output_path : string) (file_order : list string) :
  let w := snd (run fs template_dir output_path file_order) in
  handle_open w = false /\
  releases w = (if can_create fs output_path then 1 else 0) /\
  zf w = (if can_create fs output_path
          then Some (mkZipFile false (members w))
          else None).
Proof.
  rewrite run_view. destruct (can_create fs output_path).
  - destruct (loop_view fs template_dir file_order) as [[lines zis] stop].
    destruct stop; repeat split.
  - repeat split.
Qed.

(** The console of a run, by its outcome. *)
Lemma run_console `{D : Deflater} (fs : filesystem)
      (template_dir output_path : string) (file_order : list string) :
  let r := fst (run fs template_dir output_path file_order) in
  let w := snd (run fs template_dir output_path file_order) in
  if is_ok r
  then stdout w = map (entry_line fs template_dir) file_order ++ [done_line]
  else exists pre post,
         file_order = pre ++ post /\
         stdout w =
         if can_create fs output_path
         then map (entry_line fs template_dir) pre
         else [].
Proof.
  cbv zeta. destruct (can_create fs output_path) eqn:C.
  - destruct (run_split fs template_dir output_path file_order C)
      as (pre & post & E & P & _ & R).
    destruct post as [|bad post].
    + rewrite app_nil_r in E. subst pre. now rewrite R.
    + destruct R as (e & _ & R). rewrite R. simpl. now exists pre, (bad :: post).
  - rewrite run_view, C. simpl. now exists [], file_order.
Qed.

(** A manifest that lists an unreadable file makes the run raise. *)
Lemma unreadable_entry_raises `{D : Deflater} (fs : filesystem)
      (template_dir output_path : string) (file_order : list string)
      (fname : string) :
  In fname file_order ->
  stat fs (OsPath.join template_dir fname) = Unreadable ->
  is_ok (fst (run fs template_dir output_path file_order)) = false.
Proof.
  intros I U. destruct (can_create fs output_path) eqn:C.
  - destruct (run_split fs template_dir output_path file_order C)
      as (pre & post & E & P & _ & R).
    destruct post as [|bad post].
    + rewrite app_nil_r in E. subst pre.
      rewrite forallb_forall in P. specialize (P fname I).
      unfold passes in P. rewrite (entry_result_unreadable _ _ _ U) in P.
      destruct (arcname fname); discriminate.
    + destruct R as (e & _ & R). now rewrite R.
  - now rewrite run_view, C.
Qed.

(** C6.  The completion line is on the console once when the run returns
    and not at all when it raises; when the run returns, it comes last,
    after one line for each manifest entry in order; a manifest that lists
    an unreadable file makes the run raise, and when the loop reaches such
    a file the exception of that round ends the run with nothing printed
    for the entries after it. *)
Theorem completion_line_iff_completed `{D : Deflater} (fs : filesystem)
        (template_dir output_path : string) (file_order : list string) :
  let r := fst (run fs template_dir output_path file_order) in
  let w := snd (run fs template_dir output_path file_order) in
  count_occ string_dec (stdout w) done_line = (if is_ok r then 1 else 0) /\
  (is_ok r = true ->
   stdout w = map (entry_line fs template_dir) file_order ++ [done_line]) /\
  (forall fname,
     In fname file_order ->
     stat fs (OsPath.join template_dir fname) = Unreadable ->
     is_ok r = false) /\
  (forall pre fname post,
     file_order = pre ++ fname :: post ->
     can_create fs output_path = true ->
     forallb (passes fs template_dir) pre = true ->
     stat fs (OsPath.join template_dir fname) = Unreadable ->
     r = Raise (match arcname fname with
                | Some _ => PermissionError (OsPath.join template_dir fname)
                | None => IndexError
                end) /\
     stdout w = map (entry_line fs template_dir) pre).
Proof.
  cbv zeta. pose proof (run_console fs template_dir output_path file_order)
    as K. cbv zeta in K.
  split; [|split; [|split]].
  - destruct (is_ok (fst (run fs template_dir output_path file_order))).
    + rewrite K, count_occ_app, count_done_entry_lines. simpl.
      destruct (string_dec done_line done_line) as [_|N];
        [reflexivity | now elim N].
    + destruct K as (pre & post & _ & ->).
      destruct (can_create fs output_path);
        [apply count_done_entry_lines | reflexivity].
  - intros O. now rewrite O in K.
  - intros fname. apply unreadable_entry_raises.
  - intros pre fname post -> C P U.
    rewrite run_view, C, (loop_view_app _ _ _ _ P). cbn [loop_view].
    rewrite (entry_result_unreadable _ _ _ U).
    destruct (arcname fname); simpl; rewrite app_nil_r; split; reflexivity.
Qed.

(** C8.  The outcome of a run, its console, and the name and method of
    every member in order do not depend on the compressor: two runs on the
    same manifest, directory and tree agree on them whatever bytes deflate
    produces. *)
Theorem structure_deterministic (D1 D2 : Deflater) (fs : filesystem)
        (template_dir output_path : string) (file_order : list string) :
  let run1 := @run D1 fs template_dir output_path file_order in
  let run2 := @run D2 fs template_dir output_path file_order in
  fst run1 = fst run2 /\
  namelist (snd run1) = namelist (snd run2) /\
  structure (snd run1) = structure (snd run2) /\
  stdout (snd run1) = stdout (snd run2).
Proof.
  cbv zeta. rewrite !run_view.
  destruct (can_create fs output_path); [|repeat split].
  assert (L : forall l,
    let '(l1, z1, s1) := @loop_view D1 fs template_dir l in
    let '(l2, z2, s2) := @loop_view D2 fs template_dir l in
    l1 = l2 /\ s1 = s2 /\
    map (fun zi => (filename zi, compress_type zi)) z1 =
    map (fun zi => (filename zi, compress_type zi)) z2).
  { induction l as [|fname rest IH]; [repeat split|].
    cbn [loop_view].
    destruct (@loop_view D1 fs template_dir rest) as [[l1 z1] s1].
    destruct (@loop_view D2 fs template_dir rest) as [[l2 z2] s2].
    destruct IH as (-> & -> & Hz).
    unfold entry_result.
    destruct (os_path_exists fs (OsPath.join template_dir fname)); simpl;
      [|repeat split; assumption].
    destruct (from_file fs (OsPath.join template_dir fname) fname)
      as [name|e]; [|repeat split].
    destruct (is_dir name); [simpl; rewrite Hz; repeat split|].
    destruct (stat fs (OsPath.join template_dir fname));
      simpl; try rewrite Hz; repeat split. }
  specialize (L file_order).
  destruct (@loop_view D1 fs template_dir file_order) as [[l1 z1] s1].
  destruct (@loop_view D2 fs template_dir file_order) as [[l2 z2] s2].
  destruct L as (-> & -> & Hz).
  assert (Hn : map filename z1 = map filename z2).
  { apply (f_equal (map fst)) in Hz. rewrite !map_map in Hz. exact Hz. }
  destruct s2; unfold namelist, structure; simpl; repeat split; assumption.
Qed.

Import Samples.

(** The method of a written member: the one selected from the entry name
    for a file, [ZIP_STORED] for a directory. *)
Lemma entry_result_method `{D : Deflater} (fs : filesystem)
      (template_dir fname : string) (zi : ZipInfo) :
  entry_result fs template_dir fname = Ok (Some zi) ->
  compress_type zi =
  if S_ISDIR (stat fs (OsPath.join template_dir fname))
  then ZIP_STORED else compress_of fname.
Proof.
  intros R.
  destruct (stat fs (OsPath.join template_dir fname)) as [|c| |] eqn:S.
  - apply present_missing in S. apply (entry_result_missing fs) in S.
    congruence.
  - rewrite (entry_result_regular _ _ _ _ S) in R.
    destruct (arcname fname); [|discriminate]. now injection R as <-.
  - rewrite (entry_result_unreadable _ _ _ S) in R.
    destruct (arcname fname); discriminate.
  - rewrite (entry_result_directory _ _ _ S) in R.
    destruct (arcname fname); [|discriminate]. now injection R as <-.
Qed.

(** A plain path that is not a directory is stored under its own name. *)
Lemma stored_as_plain (fs : filesystem) (template_dir fname name : string) :
  stored_as fs template_dir fname name ->
  plain_path fname = true ->
  S_ISDIR (stat fs (OsPath.join template_dir fname)) = false ->
  name = fname.
Proof.
  unfold stored_as, from_file. intros F P N.
  fold (arcname fname) in F. rewrite (plain_path_arcname _ P) in F.
  destruct (stat fs (OsPath.join template_dir fname));
    try discriminate; now injection F as <-.
Qed.

Lemma stored_as_plain_list (fs : filesystem) (template_dir : string)
      (entries names : list string) :
  Forall2 (stored_as fs template_dir) entries names ->
  Forall (fun fname =>
            plain_path fname = true /\
            S_ISDIR (stat fs (OsPath.join template_dir fname)) = false)
         entries ->
  names = entries.
Proof.
  induction 1 as [|fname name entries names S _ IH]; intros F;
    [reflexivity|].
  inversion F as [|? ? [P N] F']; subst.
  rewrite (stored_as_plain _ _ _ _ S P N). now rewrite (IH F').
Qed.

Lemma compress_of_stored (fname : string) :
  compress_of fname = ZIP_STORED <->
  fname = "mimetype"%string \/ exists p, fname = (p ++ ".png")%string.
Proof.
  unfold compress_of. rewrite <- endswith_iff, <- String.eqb_eq.
  destruct (String.eqb fname "mimetype"), (PyStr.endswith fname ".png");
    simpl; split; intros; try discriminate; auto.
  destruct H as [H|H]; discriminate.
Qed.

(** C2 as stated fails on a directory: the only entry written is neither
    [mimetype] nor a [.png] name, the script selects Deflate for it, and
    the member is recorded with Store. *)
Lemma directory_member_is_stored :
  let w := snd (run directory_fs "/src" "/out.zip" ["Contents"%string])
  in
  members w = [mkZipInfo "Contents/" ZIP_STORED []] /\
  compress_of "Contents" = ZIP_DEFLATED /\
  ~ (forall zi fname,
       In zi (members w) -> In fname ["Contents"%string] ->
       (compress_type zi = ZIP_STORED <->
        fname = "mimetype"%string \/ exists p, fname = (p ++ ".png")%string)).
Proof.
  cbv zeta. split; [reflexivity|]. split; [reflexivity|].
  intros H.
  specialize (H (mkZipInfo "Contents/" ZIP_STORED []) "Contents"%string).
  destruct H as [H _]; [left; reflexivity | left; reflexivity |].
  specialize (H eq_refl). apply compress_of_stored in H. discriminate.
Qed.

(** C2, amended.  The method selected is a function of the entry name
    alone: Store exactly for [mimetype] and for names ending in [.png],
    Deflate for every other name.  Every member of the archive was written
    for a manifest entry, and it carries the method selected for that
    entry unless the entry is a directory, which is recorded with Store. *)
Theorem compression_follows_entry_name `{D : Deflater} (fs : filesystem)
        (template_dir output_path : string) (file_order : list string) :
  (forall fname,
     compress_of fname = ZIP_STORED <->
     fname = "mimetype"%string \/ exists p, fname = (p ++ ".png")%string) /\
  (forall fname,
     compress_of fname = ZIP_DEFLATED <->
     ~ (fname = "mimetype"%string \/
        exists p, fname = (p ++ ".png")%string)) /\
  (forall zi,
     In zi (members (snd (run fs template_dir output_path file_order))) ->
     exists fname,
       In fname file_order /\
       stored_as fs template_dir fname (filename zi) /\
       compress_type zi =
       if S_ISDIR (stat fs (OsPath.join template_dir fname))
       then ZIP_STORED else compress_of fname).
Proof.
  split; [exact compress_of_stored|]. split.
  - intros fname. rewrite <- compress_of_stored.
    destruct (compress_of fname); split; congruence.
  - intros zi I. destruct (can_create fs output_path) eqn:C.
    + destruct (run_split fs template_dir output_path file_order C)
        as (pre & post & E & _ & M & _).
      rewrite M in I.
      apply written_member_origin in I as (fname & I & R).
      exists fname. split; [subst; apply in_or_app; now left|]. split.
      * now apply (entry_result_written _ _ _ _ R).
      * now apply entry_result_method.
    + rewrite run_view, C in I. destruct I.
Qed.

(** When the run returns, the names in the archive are those [from_file]
    gives the entries that exist, one for one and in order. *)
Lemma returned_run_names `{D : Deflater} (fs : filesystem)
      (template_dir output_path : string) (file_order : list string) :
  is_ok (fst (run fs template_dir output_path file_order)) = true ->
  Forall2 (stored_as fs template_dir)
          (filter (present fs template_dir) file_order)
          (namelist (snd (run fs template_dir output_path file_order))).
Proof.
  intros O. destruct (can_create fs output_path) eqn:C.
  - destruct (run_split fs template_dir output_path file_order C)
      as (pre & post & E & P & M & R).
    destruct post as [|bad post].
    + rewrite app_nil_r in E. subst pre. unfold namelist. rewrite M.
      now apply written_names.
    + destruct R as (e & _ & R). rewrite R in O. discriminate.
  - rewrite run_view, C in O. discriminate.
Qed.

(** C1 as stated fails in three ways: a directory at an entry's path is
    written under the entry name followed by a slash; an entry that is not
    a normalised path is written under its normalised form; and a file
    that cannot be read stops the run, so that later entries that exist
    are not in the archive. *)
Lemma member_list_differs_from_manifest :
  namelist (snd (run directory_fs "/src" "/out.zip"
                     ["Contents"%string]))
    <> filter (present directory_fs "/src") ["Contents"%string] /\
  namelist (snd (run dotted_fs "/src" "/out.zip" ["./a.xml"%string]))
    <> filter (present dotted_fs "/src") ["./a.xml"%string] /\
  namelist (snd (run unreadable_fs "/src" "/out.zip"
                     ["a.xml"; "b.xml"; "c.xml"]%string))
    <> filter (present unreadable_fs "/src")
              ["a.xml"; "b.xml"; "c.xml"]%string.
Proof. repeat split; vm_compute; discriminate. Qed.

(** C1, amended.  When the run returns, the member list of the archive is,
    one for one and in order, the manifest restricted to the entries that
    exist, each under the name [from_file] computes for it.  That name is
    the entry itself when the entry is a plain path and not a directory,
    so that the member list then equals the restricted manifest, and the
    manifest itself when every entry exists. *)
Theorem member_list_follows_manifest `{D : Deflater} (fs : filesystem)
        (template_dir output_path : string) (file_order : list string) :
  is_ok (fst (run fs template_dir output_path file_order)) = true ->
  let names := namelist (snd (run fs template_dir output_path file_order)) in
  let existing := filter (present fs template_dir) file_order in
  Forall2 (stored_as fs template_dir) existing names /\
  (Forall (fun fname =>
             plain_path fname = true /\
             S_ISDIR (stat fs (OsPath.join template_dir fname)) = false)
          existing ->
   names = existing) /\
  (Forall (fun fname =>
             plain_path fname = true /\
             present fs template_dir fname = true /\
             S_ISDIR (stat fs (OsPath.join template_dir fname)) = false)
          file_order ->
   names = file_order).
Proof.
  intros O. cbv zeta.
  pose proof (returned_run_names fs template_dir output_path file_order O)
    as F.
  split; [exact F|]. split.
  - now apply stored_as_plain_list.
  - intros A.
    assert (E : filter (present fs template_dir) file_order = file_order).
    { clear F O. induction A as [|fname rest (_ & P & _) _ IH];
        [reflexivity|]. cbn [filter]. now rewrite P, IH. }
    rewrite E in F. apply (stored_as_plain_list _ _ _ _ F).
    eapply Forall_impl; [|exact A]. now intros fname (P & _ & N).
Qed.

(** C3.  For an entry whose path does not exist: the round prints one
    line, the warning naming the entry, leaves everything else as it was
    and the loop goes on with the next entry; dropping the entry from the
    manifest changes neither the outcome of the run nor the archive; in a
    run that returns, its warning is on the console once for each time the
    entry is listed, and in any run once for each time it is listed among
    the entries the loop reached; and a run only raises on the output path
    or on an entry that exists. *)
Theorem missing_entry_warned_and_skipped `{D : Deflater} (fs : filesystem)
        (template_dir output_path : string) (fname : string) :
  present fs template_dir fname = false ->
  (forall rest w,
     for_each (fname :: rest) (loop_body fs template_dir) w =
     for_each rest (loop_body fs template_dir)
              (mkWorld (stdout w ++ [warning_line fname]) (zf w)
                       (releases w))) /\
  (forall pre post,
     fst (run fs template_dir output_path (pre ++ fname :: post)) =
       fst (run fs template_dir output_path (pre ++ post)) /\
     members (snd (run fs template_dir output_path (pre ++ fname :: post))) =
       members (snd (run fs template_dir output_path (pre ++ post)))) /\
  (forall file_order,
     exists reached rest,
       file_order = reached ++ rest /\
       (is_ok (fst (run fs template_dir output_path file_order)) = true ->
        rest = []) /\
       count_occ string_dec
                 (stdout (snd (run fs template_dir output_path file_order)))
                 (warning_line fname) =
       count_occ string_dec reached fname) /\
  (forall file_order e,
     fst (run fs template_dir output_path file_order) = Raise e ->
     e = OSError output_path \/
     exists other,
       In other file_order /\ present fs template_dir other = true /\
       entry_result fs template_dir other = Raise e).
Proof.
  intros Hx. split; [|split; [|split]].
  - intros rest w. cbn [for_each]. unfold bind, loop_body.
    unfold present in Hx. rewrite Hx. reflexivity.
  - intros pre post. rewrite !run_view.
    destruct (can_create fs output_path); [|now split].
    destruct (loop_view_missing fs template_dir pre post fname Hx) as [M S].
    destruct (loop_view fs template_dir (pre ++ fname :: post))
      as [[l1 z1] s1].
    destruct (loop_view fs template_dir (pre ++ post)) as [[l2 z2] s2].
    simpl in M, S. subst. destruct s2; now split.
  - intros file_order.
    pose proof (run_console fs template_dir output_path file_order) as K.
    cbv zeta in K.
    destruct (is_ok (fst (run fs template_dir output_path file_order))).
    + exists file_order, []. rewrite app_nil_r. repeat split.
      rewrite K, count_occ_app.
      rewrite (count_warning_entry_lines _ _ _ _ Hx). simpl.
      destruct (string_dec done_line (warning_line fname)) as [E|_];
        [now apply done_not_warning in E | lia].
    + destruct K as (pre & post & E & K). rewrite K.
      destruct (can_create fs output_path).
      * exists pre, post. split; [exact E|]. split; [discriminate|].
        now apply count_warning_entry_lines.
      * exists [], file_order. repeat split. discriminate.
  - intros file_order e R. destruct (can_create fs output_path) eqn:C.
    + right.
      destruct (run_split fs template_dir output_path file_order C)
        as (pre & post & E & _ & _ & V).
      destruct post as [|bad post].
      * rewrite V in R. discriminate.
      * destruct V as (e' & B & V). rewrite V in R. injection R as ->.
        exists bad. split; [subst; apply in_or_app; right; now left|].
        split; [|exact B].
        destruct (present fs template_dir bad) eqn:Pb; [reflexivity|].
        rewrite (entry_result_missing _ _ _ Pb) in B. discriminate.
    + left. rewrite run_view, C in R. now injection R as <-.
Qed.


(** A plain entry is stored under its [member_name]. *)
Lemma stored_as_member_name (fs : filesystem)
      (template_dir fname name : string) :
  stored_as fs template_dir fname name ->
  plain_path fname = true ->
  name = member_name fs template_dir fname.
Proof.
  unfold stored_as, from_file, member_name. intros F P.
  fold (arcname fname) in F. rewrite (plain_path_arcname _ P) in F.
  destruct (stat fs (OsPath.join template_dir fname));
    try discriminate; now injection F as <-.
Qed.

Lemma member_name_inj (fs : filesystem) (template_dir a b : string) :
  plain_path a = true -> plain_path b = true ->
  member_name fs template_dir a = member_name fs template_dir b -> a = b.
Proof.
  unfold member_name. intros Pa Pb.
  destruct (S_ISDIR (stat fs (OsPath.join template_dir a))),
           (S_ISDIR (stat fs (OsPath.join template_dir b))); intros E.
  - now apply append_inv_tail in E.
  - pose proof (plain_path_not_dir _ Pb) as Nb.
    rewrite <- E, append_sep_is_dir in Nb. discriminate.
  - pose proof (plain_path_not_dir _ Pa) as Na.
    rewrite E, append_sep_is_dir in Na. discriminate.
  - exact E.
Qed.

Lemma stored_as_member_names (fs : filesystem) (template_dir : string)
      (entries names : list string) :
  Forall2 (stored_as fs template_dir) entries names ->
  Forall (fun fname => plain_path fname = true) entries ->
  names = map (member_name fs template_dir) entries.
Proof.
  induction 1 as [|fname name entries names S _ IH]; intros F;
    [reflexivity|].
  inversion F as [|? ? P F']; subst. cbn [map].
  rewrite <- (stored_as_member_name _ _ _ _ S P). now rewrite (IH F').
Qed.

(** The members of a run were written for the entries of a prefix of the
    manifest that exist. *)
Lemma run_names `{D : Deflater} (fs : filesystem)
      (template_dir output_path : string) (file_order : list string) :
  exists pre post,
    file_order = pre ++ post /\
    Forall2 (stored_as fs template_dir)
            (filter (present fs template_dir) pre)
            (namelist (snd (run fs template_dir output_path file_order))).
Proof.
  destruct (can_create fs output_path) eqn:C.
  - destruct (run_split fs template_dir output_path file_order C)
      as (pre & post & E & P & M & _).
    exists pre, post. split; [exact E|]. unfold namelist. rewrite M.
    now apply written_names.
  - exists [], file_order. split; [reflexivity|].
    rewrite run_view, C. constructor.
Qed.

(** C4 as stated fails on the tree of the scenario with a manifest that
    lists [a.xml] twice: the member is written twice. *)
Lemma duplicate_entry_written_twice :
  let names :=
    namelist (snd (run scenario_fs "/src" "/out.zip"
                       ["a.xml"; "a.xml"]%string)) in
  names = ["a.xml"; "a.xml"]%string /\ ~ NoDup names.
Proof.
  cbv zeta. split; [reflexivity|]. vm_compute. intros N.
  inversion N as [|? ? I _]; subst. apply I. now left.
Qed.

(** C4, amended.  Every member of the archive was written for a manifest
    entry that exists, under the name [from_file] computes for it; when
    the entries are plain paths that name is the entry, or the entry with
    a final slash for a directory; and when, in addition, no entry is
    listed twice, no member name occurs twice. *)
Theorem members_come_from_manifest `{D : Deflater} (fs : filesystem)
        (template_dir output_path : string) (file_order : list string) :
  let names := namelist (snd (run fs template_dir output_path file_order)) in
  (forall name,
     In name names ->
     exists fname,
       In fname file_order /\ present fs template_dir fname = true /\
       stored_as fs template_dir fname name) /\
  (Forall (fun fname => plain_path fname = true) file_order ->
   forall name,
     In name names ->
     exists fname,
       In fname file_order /\ name = member_name fs template_dir fname) /\
  (Forall (fun fname => plain_path fname = true) file_order ->
   NoDup file_order ->
   NoDup names).
Proof.
  cbv zeta.
  destruct (run_names fs template_dir output_path file_order)
    as (pre & post & E & F).
  assert (O : forall name,
    In name (namelist (snd (run fs template_dir output_path file_order))) ->
    exists fname,
      In fname file_order /\ present fs template_dir fname = true /\
      stored_as fs template_dir fname name).
  { intros name I.
    assert (G : forall l names,
      Forall2 (stored_as fs template_dir) l names -> In name names ->
      exists fname, In fname l /\ stored_as fs template_dir fname name).
    { induction 1 as [|a b l names' S _ IH]; intros J; [destruct J|].
      destruct J as [<-|J].
      - exists a. split; [now left | exact S].
      - destruct (IH J) as (x & Ix & Sx). exists x. split; [now right|].
        exact Sx. }
    destruct (G _ _ F I) as (fname & J & S).
    apply filter_In in J as [J Pf]. exists fname.
    split; [subst; apply in_or_app; now left|]. now split. }
  split; [exact O|]. split.
  - intros P name I. destruct (O name I) as (fname & J & _ & S).
    exists fname. split; [exact J|].
    apply (stored_as_member_name _ _ _ _ S).
    rewrite Forall_forall in P. now apply P.
  - intros P N. subst file_order.
    apply Forall_app in P as [P _]. apply NoDup_app_remove_r in N.
    assert (Pf : Forall (fun fname => plain_path fname = true)
                        (filter (present fs template_dir) pre)).
    { rewrite Forall_forall in *. intros x J.
      apply filter_In in J as [J _]. now apply P. }
    rewrite (stored_as_member_names _ _ _ _ F Pf).
    apply NoDup_map_NoDup_ForallPairs; [|now apply NoDup_filter].
    intros a b Ia Ib. rewrite Forall_forall in Pf.
    apply member_name_inj; now apply Pf.
Qed.

Lemma decode_encode `{D : Deflater} (ct : compression) (data : list byte) :
  decode ct (encode ct data) = data.
Proof. destruct ct; simpl; [reflexivity | apply inflate_deflate]. Qed.

(** In a manifest of plain paths, only an entry itself is stored under
    its name. *)
Lemma plain_manifest_names_unique (fs : filesystem) (template_dir : string)
      (file_order : list string) (fname : string) :
  Forall (fun other => plain_path other = true) file_order ->
  plain_path fname = true ->
  forall other,
    In other file_order -> stored_as fs template_dir other fname ->
    other = fname.
Proof.
  intros P Pf other I S. rewrite Forall_forall in P. specialize (P other I).
  apply (stored_as_member_name _ _ _ _ S) in P as E.
  unfold member_name in E.
  destruct (S_ISDIR (stat fs (OsPath.join template_dir other)));
    [|now symmetry].
  pose proof (plain_path_not_dir _ Pf) as N.
  rewrite E, append_sep_is_dir in N. discriminate.
Qed.

(** C9 as stated fails in four ways: for a directory, which exists and is
    written under another name without data; for an entry that is not a
    normalised path, whose member has the normalised name; for a file that
    follows an unreadable one, which is never written; and for a file
    whose member name is also the normalised name of a later entry, whose
    bytes are the ones extracted. *)
Lemma extraction_by_entry_name_fails :
  (present directory_fs "/src" "Contents" = true /\
   read (snd (run directory_fs "/src" "/out.zip" ["Contents"%string]))
        "Contents" = None) /\
  (stat dotted_fs (OsPath.join "/src" "./a.xml") = RegularFile bytes_a /\
   read (snd (run dotted_fs "/src" "/out.zip" ["./a.xml"%string]))
        "./a.xml" = None) /\
  (stat unreadable_fs (OsPath.join "/src" "c.xml") = RegularFile bytes_b /\
   read (snd (run unreadable_fs "/src" "/out.zip"
                  ["a.xml"; "b.xml"; "c.xml"]%string))
        "c.xml" = None) /\
  (stat linked_fs (OsPath.join "/src" "b.xml") = RegularFile bytes_a /\
   read (snd (run linked_fs "/src" "/out.zip"
                  ["b.xml"; "d/../b.xml"]%string))
        "b.xml" = Some bytes_b /\
   bytes_b <> bytes_a).
Proof. repeat split; vm_compute; discriminate. Qed.

(** C9, amended.  In a run that returns, for a manifest entry that is a
    readable regular file and a plain path, and under whose name no other
    manifest entry is stored, extracting the member named as the entry
    yields the bytes of the file, whatever the method of the member. *)
Theorem extraction_returns_source_bytes `{D : Deflater} (fs : filesystem)
        (template_dir output_path : string) (file_order : list string)
        (fname : string) (content : list byte) :
  is_ok (fst (run fs template_dir output_path file_order)) = true ->
  In fname file_order ->
  stat fs (OsPath.join template_dir fname) = RegularFile content ->
  plain_path fname = true ->
  (forall other,
     In other file_order -> stored_as fs template_dir other fname ->
     other = fname) ->
  read (snd (run fs template_dir output_path file_order)) fname
  = Some content.
Proof.
  intros O I S P U.
  set (zx := mkZipInfo fname (compress_of fname)
                       (encode (compress_of fname) content)).
  assert (Rx : entry_result fs template_dir fname = Ok (Some zx)).
  { rewrite (entry_result_regular _ _ _ _ S).
    now rewrite (plain_path_arcname _ P). }
  assert (M : members (snd (run fs template_dir output_path file_order)) =
              flat_map (written_member fs template_dir) file_order).
  { destruct (can_create fs output_path) eqn:C.
    - destruct (run_split fs template_dir output_path file_order C)
        as (pre & post & E & _ & M & R).
      destruct post as [|bad post].
      + rewrite app_nil_r in E. now subst pre.
      + destruct R as (e & _ & R). rewrite R in O. discriminate.
    - rewrite run_view, C in O. discriminate. }
  unfold read, getinfo. rewrite M.
  destruct (find (fun zi => String.eqb (filename zi) fname)
                 (rev (flat_map (written_member fs template_dir) file_order)))
    as [zi|] eqn:F.
  - apply find_some in F as [J E]. apply String.eqb_eq in E.
    apply in_rev in J.
    apply written_member_origin in J as (other & J & R).
    assert (other = fname) as ->.
    { apply U; [exact J|]. rewrite <- E.
      now apply (entry_result_written _ _ _ _ R). }
    rewrite Rx in R. injection R as <-. simpl.
    now rewrite decode_encode.
  - exfalso. apply find_none with (x := zx) in F.
    + simpl in F. now rewrite String.eqb_refl in F.
    + apply in_rev. rewrite rev_involutive. apply in_flat_map.
      exists fname. split; [exact I|].
      rewrite (written_member_ok _ _ _ _ Rx). now left.
Qed.

(* ===================================================================== *)
(** ** The theorems at concrete inputs *)
(* ===================================================================== *)

(** The scenario of the specification returns, and its three members are
    named as in the manifest. *)
Lemma member_list_follows_manifest_witness :
  is_ok (fst (run scenario_fs "/src" "/out.zip" scenario_manifest)) = true /\
  namelist (snd (run scenario_fs "/src" "/out.zip" scenario_manifest)) =
    ["mimetype"; "a.xml"; "img.png"]%string.
Proof.
  split; [reflexivity|].
  apply (proj1 (proj2 (member_list_follows_manifest
                         scenario_fs "/src" "/out.zip" scenario_manifest
                         eq_refl))).
  repeat constructor.
Defined.

(** In the scenario [a.xml] was written for the entry [a.xml] with the
    method selected for it. *)
Lemma compression_follows_entry_name_witness :
  In (mkZipInfo "a.xml" ZIP_DEFLATED (deflate bytes_b))
     (members (snd (run scenario_fs "/src" "/out.zip" scenario_manifest))) /\
  exists fname,
    In fname scenario_manifest /\
    stored_as scenario_fs "/src" fname "a.xml" /\
    ZIP_DEFLATED =
    if S_ISDIR (stat scenario_fs (OsPath.join "/src" fname))
    then ZIP_STORED else compress_of fname.
Proof.
  assert (I : In (mkZipInfo "a.xml" ZIP_DEFLATED (deflate bytes_b))
                 (members (snd (run scenario_fs "/src" "/out.zip"
                                    scenario_manifest)))).
  { right. left. reflexivity. }
  split; [exact I|].
  exact (proj2 (proj2 (compression_follows_entry_name
                         scenario_fs "/src" "/out.zip" scenario_manifest))
               _ I).
Defined.

(** In the scenario [missing.xml] is warned about once, and the run ends
    as it does without that entry. *)
Lemma missing_entry_warned_and_skipped_witness :
  present scenario_fs "/src" "missing.xml" = false /\
  fst (run scenario_fs "/src" "/out.zip" scenario_manifest) =
    fst (run scenario_fs "/src" "/out.zip"
             ["mimetype"; "a.xml"; "img.png"]%string) /\
  count_occ string_dec
            (stdout (snd (run scenario_fs "/src" "/out.zip"
                              scenario_manifest)))
            (warning_line "missing.xml") = 1.
Proof.
  split; [reflexivity|].
  pose proof (missing_entry_warned_and_skipped
                scenario_fs "/src" "/out.zip" "missing.xml" eq_refl)
    as (_ & Drop & Count & _).
  split.
  - exact (proj1 (Drop ["mimetype"; "a.xml"; "img.png"]%string [])).
  - destruct (Count scenario_manifest) as (reached & rest & E & R & ->).
    rewrite (R eq_refl), app_nil_r in E. now subst reached.
Defined.

(** Two different plain entries give two different member names. *)
Lemma members_come_from_manifest_witness :
  Forall (fun fname => plain_path fname = true) scenario_manifest /\
  NoDup scenario_manifest /\
  NoDup (namelist (snd (run scenario_fs "/src" "/out.zip"
                            scenario_manifest))).
Proof.
  assert (P : Forall (fun fname => plain_path fname = true)
                     scenario_manifest) by (repeat constructor).
  assert (N : NoDup scenario_manifest).
  { repeat constructor; simpl; intuition discriminate. }
  split; [exact P|]. split; [exact N|].
  exact (proj2 (proj2 (members_come_from_manifest
                         scenario_fs "/src" "/out.zip" scenario_manifest))
               P N).
Defined.

(** With an unreadable second entry the run raises after the first line,
    and the completion line is not printed. *)
Lemma completion_line_iff_completed_witness :
  stat unreadable_fs (OsPath.join "/src" "b.xml") = Unreadable /\
  fst (run unreadable_fs "/src" "/out.zip" ["a.xml"; "b.xml"; "c.xml"]%string)
    = Raise (PermissionError "/src/b.xml") /\
  stdout (snd (run unreadable_fs "/src" "/out.zip"
                   ["a.xml"; "b.xml"; "c.xml"]%string))
    = ["Added: a.xml"%string].
Proof.
  split; [reflexivity|].
  exact (proj2 (proj2 (proj2 (completion_line_iff_completed
                                unreadable_fs "/src" "/out.zip"
                                ["a.xml"; "b.xml"; "c.xml"]%string)))
               ["a.xml"%string] "b.xml"%string ["c.xml"%string]
               eq_refl eq_refl eq_refl eq_refl).
Defined.

(** An output path that cannot be created: nothing is printed. *)
Lemma unwritable_output_fails_first_witness :
  can_create readonly_fs "/out.zip" = false /\
  run readonly_fs "/src" "/out.zip" ["mimetype"%string] =
    (Raise (OSError "/out.zip"), initial_world).
Proof.
  split; [reflexivity|].
  exact (proj1 (unwritable_output_fails_first
                  readonly_fs "/src" "/out.zip" ["mimetype"%string] eq_refl)).
Defined.

(** Extracting [a.xml] from the archive of the scenario gives back the
    bytes of the file, which was deflated. *)
Lemma extraction_returns_source_bytes_witness :
  is_ok (fst (run scenario_fs "/src" "/out.zip" scenario_manifest)) = true /\
  In "a.xml"%string scenario_manifest /\
  stat scenario_fs (OsPath.join "/src" "a.xml") = RegularFile bytes_b /\
  plain_path "a.xml" = true /\
  read (snd (run scenario_fs "/src" "/out.zip" scenario_manifest)) "a.xml"
    = Some bytes_b.
Proof.
  assert (I : In "a.xml"%string scenario_manifest) by (right; now left).
  split; [reflexivity|]. split; [exact I|]. split; [reflexivity|].
  split; [reflexivity|].
  apply (extraction_returns_source_bytes
           scenario_fs "/src" "/out.zip" scenario_manifest "a.xml" bytes_b
           eq_refl I eq_refl eq_refl).
  apply plain_manifest_names_unique; [repeat constructor | reflexivity].
Defined.


(* ===================================================================== *)
(** ** The script with its own constants *)
(* ===================================================================== *)

Lemma FILE_ORDER_plain :
  Forall (fun fname => plain_path fname = true) FILE_ORDER.
Proof. repeat constructor. Qed.

Lemma FILE_ORDER_NoDup : NoDup FILE_ORDER.
Proof.
  unfold FILE_ORDER.
  repeat (constructor; [simpl; intuition discriminate|]). constructor.
Qed.

(** Rounds on plain paths that name readable files all return, and write
    each entry under its own name with the method selected for it. *)
Lemma regular_plain_rounds `{D : Deflater} (fs : filesystem)
      (template_dir : string) (entries : list string) :
  Forall (fun fname =>
            plain_path fname = true /\
            exists content,
              stat fs (OsPath.join template_dir fname) = RegularFile content)
         entries ->
  forallb (passes fs template_dir) entries = true /\
  map (fun zi => (filename zi, compress_type zi))
      (flat_map (written_member fs template_dir) entries) =
  map (fun fname => (fname, compress_of fname)) entries.
Proof.
  induction 1 as [|fname rest (P & content & S) _ (IH1 & IH2)];
    [now split|].
  assert (R : entry_result fs template_dir fname =
              Ok (Some (mkZipInfo fname (compress_of fname)
                                  (encode (compress_of fname) content)))).
  { rewrite (entry_result_regular _ _ _ _ S).
    now rewrite (plain_path_arcname _ P). }
  cbn [forallb flat_map map]. unfold passes at 1.
  rewrite R, (written_member_ok _ _ _ _ R). simpl. split; [exact IH1|].
  now rewrite IH2.
Qed.

(* ===================================================================== *)
(** ** The scenarios of the specification *)
(* ===================================================================== *)

(** Three entries present and one missing: three members in manifest
    order, [mimetype] and [img.png] stored and [a.xml] deflated, one
    warning, one completion line, the handle closed. *)
Example scenario_three_of_four :
  run scenario_fs "/src" "/out.zip" scenario_manifest =
  (Ok tt,
   mkWorld
     [ "Added: mimetype"; "Added: a.xml"; "Added: img.png";
       "Warning: missing.xml not found";
       "Done! Template recreated with correct file order." ]%string
     (Some (mkZipFile false
              [ mkZipInfo "mimetype" ZIP_STORED bytes_a;
                mkZipInfo "a.xml" ZIP_DEFLATED (deflate bytes_b);
                mkZipInfo "img.png" ZIP_STORED bytes_a ]))
     1).
Proof. reflexivity. Qed.

(** An empty source tree: no member, one warning for each entry, the
    completion line, and the run returns. *)
Example scenario_empty_tree :
  run (tree [] true) "/src" "/out.zip" scenario_manifest =
  (Ok tt,
   mkWorld
     [ "Warning: mimetype not found"; "Warning: a.xml not found";
       "Warning: img.png not found"; "Warning: missing.xml not found";
       "Done! Template recreated with correct file order." ]%string
     (Some (mkZipFile false []))
     1).
Proof. reflexivity. Qed.

(* ===================================================================== *)
(** ** Further properties of the script *)
(* ===================================================================== *)

Import Shape.

(** A run returns exactly when the output can be created and every round
    returns. *)
Lemma run_ok_iff `{D : Deflater} (fs : filesystem)
      (template_dir output_path : string) (file_order : list string) :
  is_ok (fst (run fs template_dir output_path file_order)) =
  can_create fs output_path && forallb (passes fs template_dir) file_order.
Proof.
  rewrite run_view. destruct (can_create fs output_path); [|reflexivity].
  destruct (loop_view_split fs template_dir file_order)
    as (pre & post & E & P & V & S).
  rewrite V. subst file_order. rewrite forallb_app, P.
  destruct post as [|bad post]; [reflexivity|].
  cbn [forallb]. rewrite S. unfold passes in S.
  destruct (entry_result fs template_dir bad); [discriminate | reflexivity].
Qed.

(** The members of a run that returns. *)
Lemma returned_run_members `{D : Deflater} (fs : filesystem)
      (template_dir output_path : string) (file_order : list string) :
  is_ok (fst (run fs template_dir output_path file_order)) = true ->
  run fs template_dir output_path file_order =
  (Ok tt,
   mkWorld (map (entry_line fs template_dir) file_order ++ [done_line])
           (Some (mkZipFile false
                    (flat_map (written_member fs template_dir) file_order)))
           1).
Proof.
  intros O. rewrite run_ok_iff in O. apply andb_true_iff in O as [C P].
  now rewrite run_view, C, (loop_view_passes _ _ _ P).
Qed.

(** Every member of a run was written by the round of a manifest entry. *)
Lemma run_member_origin `{D : Deflater} (fs : filesystem)
      (template_dir output_path : string) (file_order : list string)
      (zi : ZipInfo) :
  In zi (members (snd (run fs template_dir output_path file_order))) ->
  exists fname,
    In fname file_order /\
    entry_result fs template_dir fname = Ok (Some zi).
Proof.
  intros I. destruct (can_create fs output_path) eqn:C.
  - destruct (run_split fs template_dir output_path file_order C)
      as (pre & post & E & _ & M & _).
    rewrite M in I. apply written_member_origin in I as (fname & I & R).
    exists fname. split; [subst; apply in_or_app; now left | exact R].
  - rewrite run_view, C in I. destruct I.
Qed.

Lemma is_added_entry_line (fs : filesystem) (dir fname : string) :
  is_added_line (entry_line fs dir fname) = present fs dir fname.
Proof.
  unfold entry_line. destruct (present fs dir fname); [|reflexivity].
  now destruct fname.
Qed.

Lemma is_warning_entry_line (fs : filesystem) (dir fname : string) :
  is_warning_line (entry_line fs dir fname) = negb (present fs dir fname).
Proof.
  unfold entry_line. destruct (present fs dir fname); [reflexivity|].
  now destruct fname.
Qed.

(** Among rounds that return, those on present entries are the ones that
    print a progress line and the ones that append a member. *)
Lemma rounds_accounting `{D : Deflater} (fs : filesystem) (dir : string)
      (entries : list string) :
  forallb (passes fs dir) entries = true ->
  List.length (filter is_added_line (map (entry_line fs dir) entries)) =
    List.length (flat_map (written_member fs dir) entries) /\
  List.length (map (entry_line fs dir) entries) =
    List.length (flat_map (written_member fs dir) entries) +
    List.length (filter is_warning_line (map (entry_line fs dir) entries)).
Proof.
  induction entries as [|fname rest IH]; [now split|].
  cbn [forallb map filter flat_map]. intros P.
  apply andb_true_iff in P as [P1 P2]. destruct (IH P2) as [IH1 IH2].
  rewrite is_added_entry_line, is_warning_entry_line.
  unfold passes in P1.
  destruct (entry_result fs dir fname) as [[zi|]|e] eqn:R; [| |discriminate].
  - rewrite (written_member_ok _ _ _ _ R).
    destruct (entry_result_written _ _ _ _ R) as [-> _]. simpl.
    split; lia.
  - rewrite (written_member_ok _ _ _ _ R).
    apply entry_result_skip_iff in R. rewrite R. simpl. split; lia.
Qed.

Lemma warning_lines_count (fs : filesystem) (dir : string)
      (entries : list string) :
  List.length (filter is_warning_line (map (entry_line fs dir) entries)) =
  List.length (filter (fun fname => negb (present fs dir fname)) entries).
Proof.
  induction entries as [|fname rest IH]; [reflexivity|].
  cbn [map filter]. rewrite is_warning_entry_line.
  destruct (negb (present fs dir fname)); simpl; now rewrite IH.
Qed.

(** X2.  The console accounts for the archive.  In a run that returns,
    the number of [Added:] lines is the number of members of the archive,
    the number of [Warning:] lines is the number of manifest entries that
    do not exist, and the console holds one line for each manifest entry
    and the completion line. *)
Theorem returned_console_accounts_for_archive `{D : Deflater}
        (fs : filesystem) (template_dir output_path : string)
        (file_order : list string) :
  is_ok (fst (run fs template_dir output_path file_order)) = true ->
  let w := snd (run fs template_dir output_path file_order) in
  List.length (filter is_added_line (stdout w)) = List.length (members w) /\
  List.length (filter is_warning_line (stdout w)) =
    List.length (filter (fun fname => negb (present fs template_dir fname))
                        file_order) /\
  List.length (stdout w) = List.length file_order + 1.
Proof.
  intros O. cbv zeta. rewrite (returned_run_members _ _ _ _ O).
  rewrite run_ok_iff in O. apply andb_true_iff in O as [_ P].
  destruct (rounds_accounting fs template_dir file_order P) as [A _].
  cbn [snd stdout members zf filelist].
  rewrite !filter_app, !List.length_app, A, warning_lines_count.
  rewrite List.length_map. simpl. repeat split; lia.
Qed.

Lemma returned_console_accounts_for_archive_witness :
  is_ok (fst (run scenario_fs "/src" "/out.zip" scenario_manifest)) = true /\
  List.length
    (filter is_added_line
            (stdout (snd (run scenario_fs "/src" "/out.zip"
                              scenario_manifest)))) =
  List.length
    (members (snd (run scenario_fs "/src" "/out.zip" scenario_manifest))).
Proof.
  split; [reflexivity|].
  exact (proj1 (returned_console_accounts_for_archive
                  scenario_fs "/src" "/out.zip" scenario_manifest eq_refl)).
Defined.

Lemma join_isabs (a b : string) : isabs b = true -> OsPath.join a b = b.
Proof. unfold isabs, OsPath.join. now intros ->. Qed.

Lemma for_each_ext {S A} (xs : list A) (f g : A -> M S unit) :
  Forall (fun x => forall s, f x s = g x s) xs ->
  forall s, for_each xs f s = for_each xs g s.
Proof.
  induction 1 as [|x xs E _ IH]; intros s; [reflexivity|].
  cbn [for_each]. unfold bind. rewrite E.
  destruct (g x s) as [[u|e] s']; [apply IH | reflexivity].
Qed.

(** X3.  An absolute entry escapes the template directory.  For an entry
    that begins with a separator [os.path.join] discards the template
    directory: the entry is tested and read at its own path, so a manifest
    of absolute entries gives the same run whatever the template directory
    is. *)
Theorem absolute_entries_ignore_template_dir `{D : Deflater}
        (fs : filesystem) (output_path : string) (file_order : list string)
        (dir1 dir2 : string) :
  Forall (fun fname => isabs fname = true) file_order ->
  (forall fname,
     In fname file_order ->
     present fs dir1 fname = os_path_exists fs fname) /\
  run fs dir1 output_path file_order = run fs dir2 output_path file_order.
Proof.
  intros A. split.
  - intros fname I. rewrite Forall_forall in A. unfold present.
    now rewrite (join_isabs _ _ (A fname I)).
  - unfold run, rebuild, bind, with_ZipFile.
    destruct (ZipFile_open fs output_path initial_world) as [[u|e] w1];
      [|reflexivity].
    rewrite (for_each_ext file_order (loop_body fs dir1) (loop_body fs dir2));
      [reflexivity|].
    eapply Forall_impl; [|exact A]. intros fname I w. unfold loop_body.
    now rewrite !(join_isabs _ _ I).
Qed.

Lemma absolute_entries_ignore_template_dir_witness :
  Forall (fun fname => isabs fname = true) ["/etc/hosts"%string] /\
  run absolute_fs "/src" "/out.zip" ["/etc/hosts"%string] =
    run absolute_fs "/elsewhere" "/out.zip" ["/etc/hosts"%string] /\
  namelist (snd (run absolute_fs "/src" "/out.zip" ["/etc/hosts"%string])) =
    ["etc/hosts"%string].
Proof.
  assert (A : Forall (fun fname => isabs fname = true)
                     ["/etc/hosts"%string]) by (repeat constructor).
  split; [exact A|]. split; [|reflexivity].
  exact (proj2 (absolute_entries_ignore_template_dir
                  absolute_fs "/out.zip" ["/etc/hosts"%string]
                  "/src" "/elsewhere" A)).
Defined.

Lemma strip_leading_sep_shape (s a : string) :
  strip_leading_sep s = Some a ->
  exists c r, a = String c r /\ c <> OsPath.sep_char.
Proof.
  induction s as [|x s IH]; simpl; [discriminate|].
  destruct (Ascii.eqb_spec x OsPath.sep_char) as [->|N]; [exact IH|].
  intros [= <-]. now exists x, s.
Qed.

Lemma isabs_String (c : ascii) (r : string) :
  c <> OsPath.sep_char -> isabs (String c r) = false.
Proof.
  intros N. unfold isabs, OsPath.sep. cbn [PyStr.startswith].
  destruct (Ascii.eqb_spec c "/") as [E|_]; [now elim N | reflexivity].
Qed.

(** X4.  Member names are relative.  In every run each member of the
    archive has a name that is not empty and does not begin with a
    separator, and the name ends with a separator exactly when the member
    was written for a directory. *)
Theorem member_names_are_relative `{D : Deflater} (fs : filesystem)
        (template_dir output_path : string) (file_order : list string)
        (zi : ZipInfo) :
  In zi (members (snd (run fs template_dir output_path file_order))) ->
  filename zi <> ""%string /\
  isabs (filename zi) = false /\
  exists fname,
    In fname file_order /\
    stored_as fs template_dir fname (filename zi) /\
    is_dir (filename zi) =
    S_ISDIR (stat fs (OsPath.join template_dir fname)).
Proof.
  intros I. apply run_member_origin in I as (fname & I & R).
  pose proof (entry_result_written _ _ _ _ R) as [_ W].
  assert (G : (exists c r, filename zi = String c r /\ c <> OsPath.sep_char)
              /\ is_dir (filename zi) =
                 S_ISDIR (stat fs (OsPath.join template_dir fname))).
  { destruct (stat fs (OsPath.join template_dir fname)) as [|c| |] eqn:S.
    - apply present_missing in S.
      rewrite (entry_result_missing _ _ _ S) in R. discriminate.
    - rewrite (entry_result_regular _ _ _ _ S) in R.
      destruct (arcname fname) as [a|] eqn:A; [|discriminate].
      injection R as <-. simpl. split.
      + now apply (strip_leading_sep_shape _ _ A).
      + now apply (arcname_not_dir fname).
    - rewrite (entry_result_unreadable _ _ _ S) in R.
      destruct (arcname fname); discriminate.
    - rewrite (entry_result_directory _ _ _ S) in R.
      destruct (arcname fname) as [a|] eqn:A; [|discriminate].
      injection R as <-. simpl. split.
      + destruct (strip_leading_sep_shape _ _ A) as (c & r & -> & N).
        now exists c, (r ++ "/")%string.
      + apply append_sep_is_dir. }
  destruct G as [(c & r & E & N) Dir]. split; [|split].
  - rewrite E. discriminate.
  - rewrite E. now apply isabs_String.
  - exists fname. now repeat split.
Qed.

Lemma member_names_are_relative_witness :
  In (mkZipInfo "etc/hosts" ZIP_DEFLATED (deflate bytes_a))
     (members (snd (run absolute_fs "/src" "/out.zip"
                        ["/etc/hosts"%string]))) /\
  isabs "etc/hosts" = false.
Proof.
  assert (I : In (mkZipInfo "etc/hosts" ZIP_DEFLATED (deflate bytes_a))
                 (members (snd (run absolute_fs "/src" "/out.zip"
                                    ["/etc/hosts"%string]))))
    by (left; reflexivity).
  split; [exact I|].
  exact (proj1 (proj2 (member_names_are_relative
                         absolute_fs "/src" "/out.zip"
                         ["/etc/hosts"%string] _ I))).
Defined.

(** The loop on a manifest in two parts: the second part is run when the
    first returns, and is not looked at when the first raises. *)
Lemma loop_view_concat `{D : Deflater} (fs : filesystem) (dir : string)
      (pre post : list string) :
  loop_view fs dir (pre ++ post) =
  let '(lines1, zis1, stop1) := loop_view fs dir pre in
  match stop1 with
  | Some e => (lines1, zis1, Some e)
  | None =>
      let '(lines2, zis2, stop2) := loop_view fs dir post in
      (lines1 ++ lines2, zis1 ++ zis2, stop2)
  end.
Proof.
  induction pre as [|fname pre IH].
  - simpl. now destruct (loop_view fs dir post) as [[lines2 zis2] stop2].
  - change ((fname :: pre) ++ post) with (fname :: (pre ++ post)).
    cbn [loop_view]. rewrite IH.
    destruct (entry_result fs dir fname) as [o|e]; [|reflexivity].
    destruct (loop_view fs dir pre) as [[lines1 zis1] [e|]]; [reflexivity|].
    destruct (loop_view fs dir post) as [[lines2 zis2] stop2].
    destruct o; reflexivity.
Qed.

(** X5.  Nothing happens after a round that raises.  Lengthening the
    manifest only adds members after those already written, and when the
    run on a manifest raises, the run on any longer manifest is the same
    run: same exception, same console, same archive.  The entries after
    the failing one are not even tested. *)
Theorem nothing_after_a_failed_round `{D : Deflater} (fs : filesystem)
        (template_dir output_path : string) (pre post : list string) :
  (exists more,
     members (snd (run fs template_dir output_path (pre ++ post))) =
     members (snd (run fs template_dir output_path pre)) ++ more) /\
  (is_ok (fst (run fs template_dir output_path pre)) = false ->
   run fs template_dir output_path (pre ++ post) =
   run fs template_dir output_path pre).
Proof.
  rewrite !run_view. destruct (can_create fs output_path).
  - rewrite loop_view_concat.
    destruct (loop_view fs template_dir pre) as [[lines1 zis1] [e|]].
    + split; [exists []; now rewrite app_nil_r | reflexivity].
    + destruct (loop_view fs template_dir post) as [[lines2 zis2] stop2].
      split; [|discriminate]. exists zis2. now destruct stop2.
  - split; [now exists [] | reflexivity].
Qed.

Lemma nothing_after_a_failed_round_witness :
  is_ok (fst (run unreadable_fs "/src" "/out.zip"
                  ["a.xml"; "b.xml"]%string)) = false /\
  run unreadable_fs "/src" "/out.zip" ["a.xml"; "b.xml"; "c.xml"]%string =
  run unreadable_fs "/src" "/out.zip" ["a.xml"; "b.xml"]%string.
Proof.
  split; [reflexivity|].
  exact (proj2 (nothing_after_a_failed_round
                  unreadable_fs "/src" "/out.zip"
                  ["a.xml"; "b.xml"]%string ["c.xml"%string]) eq_refl).
Defined.

(** X6.  Runs compose.  When the run on a first manifest returns, the run
    on that manifest followed by a second one ends as the run on the
    second does, its archive is the members of the first run followed by
    those of the second, and its console is the console of the first run
    without the completion line followed by the console of the second. *)
Theorem runs_compose `{D : Deflater} (fs : filesystem)
        (template_dir output_path : string) (first second : list string) :
  is_ok (fst (run fs template_dir output_path first)) = true ->
  fst (run fs template_dir output_path (first ++ second)) =
    fst (run fs template_dir output_path second) /\
  members (snd (run fs template_dir output_path (first ++ second))) =
    members (snd (run fs template_dir output_path first)) ++
    members (snd (run fs template_dir output_path second)) /\
  stdout (snd (run fs template_dir output_path (first ++ second))) =
    removelast (stdout (snd (run fs template_dir output_path first))) ++
    stdout (snd (run fs template_dir output_path second)).
Proof.
  intros O. rewrite (returned_run_members _ _ _ _ O).
  rewrite run_ok_iff in O. apply andb_true_iff in O as [C P].
  rewrite !run_view, C, loop_view_concat, (loop_view_passes _ _ _ P).
  destruct (loop_view fs template_dir second) as [[lines2 zis2] stop2].
  cbn [snd stdout members zf filelist]. rewrite removelast_last.
  destruct stop2; cbn [fst snd stdout members zf filelist];
    repeat split; now rewrite ?app_assoc.
Qed.

Lemma runs_compose_witness :
  is_ok (fst (run scenario_fs "/src" "/out.zip"
                  ["mimetype"; "a.xml"]%string)) = true /\
  members (snd (run scenario_fs "/src" "/out.zip" scenario_manifest)) =
    members (snd (run scenario_fs "/src" "/out.zip"
                      ["mimetype"; "a.xml"]%string)) ++
    members (snd (run scenario_fs "/src" "/out.zip"
                      ["img.png"; "missing.xml"]%string)).
Proof.
  split; [reflexivity|].
  exact (proj1 (proj2 (runs_compose scenario_fs "/src" "/out.zip"
                         ["mimetype"; "a.xml"]%string
                         ["img.png"; "missing.xml"]%string eq_refl))).
Defined.

(** One round on two file systems that agree on the kind of the node at
    the entry's path, with any two compressors. *)
Lemma loop_view_same_kind (D1 D2 : Deflater) (fs1 fs2 : filesystem)
      (dir : string) (entries : list string) :
  (forall path, same_kind (stat fs1 path) (stat fs2 path) = true) ->
  let '(l1, z1, s1) := @loop_view D1 fs1 dir entries in
  let '(l2, z2, s2) := @loop_view D2 fs2 dir entries in
  l1 = l2 /\ s1 = s2 /\
  map (fun zi => (filename zi, compress_type zi)) z1 =
  map (fun zi => (filename zi, compress_type zi)) z2.
Proof.
  intros K. induction entries as [|fname rest IH]; [repeat split|].
  cbn [loop_view].
  destruct (@loop_view D1 fs1 dir rest) as [[l1 z1] s1].
  destruct (@loop_view D2 fs2 dir rest) as [[l2 z2] s2].
  destruct IH as (-> & -> & Hz).
  unfold entry_result, entry_line, present, os_path_exists, from_file.
  specialize (K (OsPath.join dir fname)).
  destruct (stat fs1 (OsPath.join dir fname)),
           (stat fs2 (OsPath.join dir fname)); try discriminate;
    cbn [negb S_ISDIR].
  - repeat split; assumption.
  - destruct (strip_leading_sep (OsPath.normpath fname)) as [a|];
      [|repeat split].
    destruct (is_dir a); simpl; rewrite Hz; repeat split.
  - destruct (strip_leading_sep (OsPath.normpath fname)) as [a|];
      [|repeat split].
    destruct (is_dir a); simpl; try rewrite Hz; repeat split.
  - destruct (strip_leading_sep (OsPath.normpath fname)) as [a|];
      [|repeat split].
    destruct (is_dir (a ++ "/")); simpl; try rewrite Hz; repeat split.
Qed.

(** X7.  The shape of the archive does not depend on the bytes of the
    files.  On two file systems that agree, path by path, on whether
    there is nothing, a readable file, an unreadable file or a directory,
    two runs that both return print the same console and write members
    with the same names and methods in the same order, whatever the files
    contain and whatever the compressor produces. *)
Theorem returned_archive_shape_ignores_contents (D1 D2 : Deflater)
        (fs1 fs2 : filesystem) (template_dir output_path : string)
        (file_order : list string) :
  (forall path, same_kind (stat fs1 path) (stat fs2 path) = true) ->
  let run1 := @run D1 fs1 template_dir output_path file_order in
  let run2 := @run D2 fs2 template_dir output_path file_order in
  is_ok (fst run1) = true ->
  is_ok (fst run2) = true ->
  structure (snd run1) = structure (snd run2) /\
  stdout (snd run1) = stdout (snd run2).
Proof.
  intros K. cbv zeta. intros O1 O2.
  rewrite (@run_ok_iff D1) in O1. rewrite (@run_ok_iff D2) in O2.
  apply andb_true_iff in O1 as [C1 _]. apply andb_true_iff in O2 as [C2 _].
  rewrite !run_view, C1, C2.
  pose proof (loop_view_same_kind D1 D2 fs1 fs2 template_dir file_order K)
    as L.
  destruct (@loop_view D1 fs1 template_dir file_order) as [[l1 z1] s1].
  destruct (@loop_view D2 fs2 template_dir file_order) as [[l2 z2] s2].
  destruct L as (-> & -> & Hz).
  destruct s2; unfold structure; simpl; repeat split; assumption.
Qed.

Lemma returned_archive_shape_ignores_contents_witness :
  (forall path,
     same_kind (stat scenario_fs path) (stat scenario_fs' path) = true) /\
  is_ok (fst (run scenario_fs "/src" "/out.zip" scenario_manifest)) = true /\
  is_ok (fst (run scenario_fs' "/src" "/out.zip" scenario_manifest)) = true /\
  structure (snd (run scenario_fs "/src" "/out.zip" scenario_manifest)) =
  structure (snd (run scenario_fs' "/src" "/out.zip" scenario_manifest)).
Proof.
  assert (K : forall path,
            same_kind (stat scenario_fs path) (stat scenario_fs' path)
            = true).
  { intros path. unfold scenario_fs, scenario_fs', tree.
    cbn [stat lookup].
    repeat match goal with
           | |- context [String.eqb ?a path] => destruct (String.eqb a path)
           end; reflexivity. }
  split; [exact K|]. split; [reflexivity|]. split; [reflexivity|].
  exact (proj1 (returned_archive_shape_ignores_contents
                  stored_block stored_block scenario_fs scenario_fs'
                  "/src" "/out.zip" scenario_manifest K eq_refl eq_refl)).
Defined.

(** X8.  Only the exact name [mimetype] is stored.  The test on the name
    is an equality, not a test on the end of the path: an entry that ends
    in [mimetype] after anything else, such as [sub/mimetype], is
    deflated. *)
Theorem only_exact_mimetype_is_stored (p : string) :
  p <> ""%string -> compress_of (p ++ "mimetype") = ZIP_DEFLATED.
Proof.
  intros N. unfold compress_of.
  destruct (String.eqb_spec (p ++ "mimetype") "mimetype") as [E|_].
  - apply (append_inv_tail p "" "mimetype") in E. now elim N.
  - destruct (PyStr.endswith (p ++ "mimetype") ".png") eqn:S;
      [|reflexivity].
    apply endswith_iff in S as [q E].
    change "mimetype"%string with ("mime" ++ "type")%string in E.
    rewrite <- append_assoc in E.
    apply append_inv_tail_len in E as [_ E]; [discriminate|].
    apply (f_equal String.length) in E.
    rewrite !length_append in E. rewrite length_append.
    cbn [String.length] in *. lia.
Qed.

Lemma only_exact_mimetype_is_stored_witness :
  "sub/"%string <> ""%string /\ compress_of "sub/mimetype" = ZIP_DEFLATED.
Proof.
  assert (N : "sub/"%string <> ""%string) by discriminate.
  split; [exact N|].
  exact (only_exact_mimetype_is_stored "sub/" N).
Defined.

(** X9.  Every member holds the bytes of its source.  In a run that
    returns, each member of the archive was written for a manifest entry
    that is a readable file, whose bytes are what decoding the member with
    its own method gives, or for a directory, and then it holds no
    data. *)
Theorem returned_members_hold_source_bytes `{D : Deflater} (fs : filesystem)
        (template_dir output_path : string) (file_order : list string)
        (zi : ZipInfo) :
  is_ok (fst (run fs template_dir output_path file_order)) = true ->
  In zi (members (snd (run fs template_dir output_path file_order))) ->
  exists fname,
    In fname file_order /\
    stored_as fs template_dir fname (filename zi) /\
    match stat fs (OsPath.join template_dir fname) with
    | RegularFile content =>
        decode (compress_type zi) (stored zi) = content
    | Directory => stored zi = []
    | _ => False
    end.
Proof.
  intros O I. rewrite (returned_run_members _ _ _ _ O) in I.
  cbn [snd members zf filelist] in I.
  apply written_member_origin in I as (fname & I & R).
  exists fname. split; [exact I|].
  split; [now apply (entry_result_written _ _ _ _ R)|].
  destruct (stat fs (OsPath.join template_dir fname)) as [|c| |] eqn:S.
  - apply present_missing in S.
    rewrite (entry_result_missing _ _ _ S) in R. discriminate.
  - rewrite (entry_result_regular _ _ _ _ S) in R.
    destruct (arcname fname); [|discriminate]. injection R as <-. simpl.
    apply decode_encode.
  - rewrite (entry_result_unreadable _ _ _ S) in R.
    destruct (arcname fname); discriminate.
  - rewrite (entry_result_directory _ _ _ S) in R.
    destruct (arcname fname); [|discriminate]. now injection R as <-.
Qed.

Lemma returned_members_hold_source_bytes_witness :
  is_ok (fst (run scenario_fs "/src" "/out.zip" scenario_manifest)) = true /\
  In (mkZipInfo "a.xml" ZIP_DEFLATED (deflate bytes_b))
     (members (snd (run scenario_fs "/src" "/out.zip" scenario_manifest))) /\
  exists fname,
    In fname scenario_manifest /\
    stored_as scenario_fs "/src" fname "a.xml" /\
    match stat scenario_fs (OsPath.join "/src" fname) with
    | RegularFile content => inflate (deflate bytes_b) = content
    | Directory => deflate bytes_b = []
    | _ => False
    end.
Proof.
  assert (I : In (mkZipInfo "a.xml" ZIP_DEFLATED (deflate bytes_b))
                 (members (snd (run scenario_fs "/src" "/out.zip"
                                    scenario_manifest))))
    by (right; left; reflexivity).
  split; [reflexivity|]. split; [exact I|].
  exact (returned_members_hold_source_bytes scenario_fs "/src" "/out.zip"
           scenario_manifest _ eq_refl I).
Defined.

Lemma forallb_Permutation {A} (f : A -> bool) (l l' : list A) :
  Permutation l l' -> forallb f l = forallb f l'.
Proof.
  induction 1 as [|x l l' _ IH|x y l|l l' l'' _ IH1 _ IH2]; simpl.
  - reflexivity.
  - now rewrite IH.
  - destruct (f x), (f y); reflexivity.
  - now rewrite IH1.
Qed.

(** X11.  Reordering the manifest reorders the archive and nothing else.
    Two manifests with the same entries in another order give runs that
    both return or both raise, and when they return the two archives
    hold the same members, in another order. *)
Theorem reordering_permutes_archive `{D : Deflater} (fs : filesystem)
        (template_dir output_path : string) (file_order other : list string) :
  Permutation file_order other ->
  is_ok (fst (run fs template_dir output_path file_order)) =
    is_ok (fst (run fs template_dir output_path other)) /\
  (is_ok (fst (run fs template_dir output_path file_order)) = true ->
   Permutation
     (members (snd (run fs template_dir output_path file_order)))
     (members (snd (run fs template_dir output_path other)))).
Proof.
  intros P.
  assert (E : is_ok (fst (run fs template_dir output_path file_order)) =
              is_ok (fst (run fs template_dir output_path other))).
  { rewrite !run_ok_iff. f_equal. now apply forallb_Permutation. }
  split; [exact E|]. intros O.
  rewrite (returned_run_members _ _ _ _ O).
  rewrite E in O. rewrite (returned_run_members _ _ _ _ O).
  cbn [snd members zf filelist]. now apply Permutation_flat_map.
Qed.

Lemma reordering_permutes_archive_witness :
  Permutation ["mimetype"; "a.xml"]%string ["a.xml"; "mimetype"]%string /\
  Permutation
    (members (snd (run scenario_fs "/src" "/out.zip"
                       ["mimetype"; "a.xml"]%string)))
    (members (snd (run scenario_fs "/src" "/out.zip"
                       ["a.xml"; "mimetype"]%string))).
Proof.
  assert (P : Permutation ["mimetype"; "a.xml"]%string
                          ["a.xml"; "mimetype"]%string)
    by apply perm_swap.
  split; [exact P|].
  exact (proj2 (reordering_permutes_archive scenario_fs "/src" "/out.zip"
                  _ _ P) eq_refl).
Defined.

(** X12.  A tree without any of the entries is not an error.  When the
    output can be created and no entry of the manifest exists (an empty
    manifest included), the run returns, the archive is created, closed
    and empty, and the console is one warning for each entry in order
    followed by the completion line. *)
Theorem nothing_present_still_returns `{D : Deflater} (fs : filesystem)
        (template_dir output_path : string) (file_order : list string) :
  can_create fs output_path = true ->
  Forall (fun fname => present fs template_dir fname = false) file_order ->
  run fs template_dir output_path file_order =
  (Ok tt,
   mkWorld (map warning_line file_order ++ [done_line])
           (Some (mkZipFile false []))
           1).
Proof.
  intros C A.
  assert (G : forallb (passes fs template_dir) file_order = true /\
              flat_map (written_member fs template_dir) file_order = [] /\
              map (entry_line fs template_dir) file_order =
              map warning_line file_order).
  { induction A as [|fname rest Hx _ (IH1 & IH2 & IH3)]; [repeat split|].
    pose proof (entry_result_missing _ _ _ Hx) as R.
    cbn [forallb flat_map map]. unfold passes at 1, entry_line at 1.
    rewrite R, (written_member_ok _ _ _ _ R), Hx, IH1, IH2, IH3.
    repeat split. }
  destruct G as (P & Z & L).
  now rewrite run_view, C, (loop_view_passes _ _ _ P), Z, L.
Qed.

Lemma nothing_present_still_returns_witness :
  can_create (tree [] true) "/out.zip" = true /\
  Forall (fun fname => present (tree [] true) "/src" fname = false)
         scenario_manifest /\
  run (tree [] true) "/src" "/out.zip" scenario_manifest =
  (Ok tt,
   mkWorld (map warning_line scenario_manifest ++ [done_line])
           (Some (mkZipFile false []))
           1).
Proof.
  assert (A : Forall (fun fname => present (tree [] true) "/src" fname
                                   = false) scenario_manifest)
    by (repeat constructor).
  split; [reflexivity|]. split; [exact A|].
  exact (nothing_present_still_returns (tree [] true) "/src" "/out.zip"
           scenario_manifest eq_refl A).
Defined.

(** X13.  The script with its own constants.  When the script returns
    and the thirteen paths of [FILE_ORDER] under [TEMPLATE_DIR] are
    readable files, the archive lists [FILE_ORDER] exactly, with
    [mimetype] and the preview image stored and the rest deflated, the
    console shows thirteen progress lines and the completion line, and
    the handle is closed. *)
Theorem returned_main_archive_is_file_order `{D : Deflater}
        (fs : filesystem) :
  is_ok (fst (main fs initial_world)) = true ->
  (forall fname,
     In fname FILE_ORDER ->
     exists content,
       stat fs (OsPath.join TEMPLATE_DIR fname) = RegularFile content) ->
  namelist (snd (main fs initial_world)) = FILE_ORDER /\
  structure (snd (main fs initial_world)) =
    map (fun fname => (fname, compress_of fname)) FILE_ORDER /\
  stdout (snd (main fs initial_world)) =
    map added_line FILE_ORDER ++ [done_line] /\
  handle_open (snd (main fs initial_world)) = false.
Proof.
  change (main fs initial_world)
    with (run fs TEMPLATE_DIR OUTPUT_PATH FILE_ORDER).
  intros O A. rewrite (returned_run_members _ _ _ _ O).
  assert (F : Forall (fun fname =>
                        plain_path fname = true /\
                        exists content,
                          stat fs (OsPath.join TEMPLATE_DIR fname)
                          = RegularFile content) FILE_ORDER).
  { pose proof FILE_ORDER_plain as P. rewrite Forall_forall in *.
    intros fname I. split; [now apply P | now apply A]. }
  destruct (regular_plain_rounds fs TEMPLATE_DIR FILE_ORDER F) as [_ S].
  unfold namelist, structure. cbn [fst snd members zf filelist stdout].
  split; [|split; [exact S|split; [|reflexivity]]].
  - apply (f_equal (map fst)) in S. rewrite !map_map in S. cbn [fst] in S.
    rewrite map_id in S. exact S.
  - f_equal. apply map_ext_in. intros fname I. unfold entry_line.
    destruct (A fname I) as [content E].
    unfold present, os_path_exists. now rewrite E.
Qed.

Lemma returned_main_archive_is_file_order_witness :
  is_ok (fst (main (full_fs bytes_a) initial_world)) = true /\
  namelist (snd (main (full_fs bytes_a) initial_world)) = FILE_ORDER.
Proof.
  split; [reflexivity|].
  exact (proj1 (returned_main_archive_is_file_order
                  (full_fs bytes_a) eq_refl
                  (fun fname _ => ex_intro _ bytes_a eq_refl))).
Defined.

(** The member names of a manifest of plain paths without repetition. *)
Lemma plain_manifest_namelist `{D : Deflater} (fs : filesystem)
      (template_dir output_path : string) (file_order : list string) :
  Forall (fun fname => plain_path fname = true) file_order ->
  NoDup file_order ->
  exists reached rest,
    file_order = reached ++ rest /\
    namelist (snd (run fs template_dir output_path file_order)) =
      map (member_name fs template_dir)
          (filter (present fs template_dir) reached) /\
    NoDup (namelist (snd (run fs template_dir output_path file_order))).
Proof.
  intros P N.
  destruct (run_names fs template_dir output_path file_order)
    as (pre & post & E & F).
  exists pre, post. split; [exact E|]. subst file_order.
  apply Forall_app in P as [P _]. apply NoDup_app_remove_r in N.
  assert (Pf : Forall (fun fname => plain_path fname = true)
                      (filter (present fs template_dir) pre)).
  { rewrite Forall_forall in *. intros x J.
    apply filter_In in J as [J _]. now apply P. }
  rewrite (stored_as_member_names _ _ _ _ F Pf). split; [reflexivity|].
  apply NoDup_map_NoDup_ForallPairs; [|now apply NoDup_filter].
  intros a b Ia Ib. rewrite Forall_forall in Pf.
  apply member_name_inj; now apply Pf.
Qed.

(** X15.  The script never writes a name twice.  Whatever the file system
    holds, the archive the script leaves has no two members of the same
    name, and each member is named as an entry of [FILE_ORDER], with a
    final separator when a directory stands where the file should be. *)
Theorem main_writes_each_name_once `{D : Deflater} (fs : filesystem) :
  let names := namelist (snd (main fs initial_world)) in
  NoDup names /\
  forall name,
    In name names ->
    exists fname,
      In fname FILE_ORDER /\
      present fs TEMPLATE_DIR fname = true /\
      name = member_name fs TEMPLATE_DIR fname.
Proof.
  cbv zeta.
  change (main fs initial_world)
    with (run fs TEMPLATE_DIR OUTPUT_PATH FILE_ORDER).
  destruct (plain_manifest_namelist fs TEMPLATE_DIR OUTPUT_PATH FILE_ORDER
              FILE_ORDER_plain FILE_ORDER_NoDup)
    as (reached & rest & E & L & N).
  split; [exact N|]. intros name I. rewrite L in I.
  apply in_map_iff in I as (fname & <- & I).
  apply filter_In in I as [I Pf]. exists fname.
  split; [rewrite E; apply in_or_app; now left|]. now split.
Qed.

Lemma join_trailing_sep (dir fname : string) :
  dir <> ""%string -> PyStr.endswith dir OsPath.sep = false ->
  OsPath.join (dir ++ OsPath.sep) fname = OsPath.join dir fname.
Proof.
  intros N T. unfold OsPath.join.
  destruct (PyStr.startswith fname OsPath.sep); [reflexivity|].
  rewrite T, endswith_append, orb_true_r.
  destruct (String.eqb_spec dir "") as [E|_]; [now elim N|].
  simpl orb. now rewrite append_assoc.
Qed.

(** X16.  A final separator on the template directory changes nothing.
    For a template directory that is not empty and does not end with a
    separator, the run with the directory followed by a separator is the
    same run: every entry is tested and read at the same path. *)
Theorem trailing_separator_is_irrelevant `{D : Deflater} (fs : filesystem)
        (template_dir output_path : string) (file_order : list string) :
  template_dir <> ""%string ->
  PyStr.endswith template_dir OsPath.sep = false ->
  run fs (template_dir ++ OsPath.sep) output_path file_order =
  run fs template_dir output_path file_order.
Proof.
  intros N T. unfold run, rebuild, bind, with_ZipFile.
  destruct (ZipFile_open fs output_path initial_world) as [[u|e] w1];
    [|reflexivity].
  rewrite (for_each_ext file_order
             (loop_body fs (template_dir ++ OsPath.sep))
             (loop_body fs template_dir)); [reflexivity|].
  apply Forall_forall. intros fname _ w. unfold loop_body.
  now rewrite (join_trailing_sep _ fname N T).
Qed.

Lemma trailing_separator_is_irrelevant_witness :
  "/src"%string <> ""%string /\
  PyStr.endswith "/src" OsPath.sep = false /\
  run scenario_fs "/src/" "/out.zip" scenario_manifest =
  run scenario_fs "/src" "/out.zip" scenario_manifest.
Proof.
  assert (N : "/src"%string <> ""%string) by discriminate.
  split; [exact N|]. split; [reflexivity|].
  exact (trailing_separator_is_irrelevant scenario_fs "/src" "/out.zip"
           scenario_manifest N eq_refl).
Defined.
